(** * TradingView -> Gate.io webhook: order submission with retry

    A shallow embedding of [app/main.py]: the symbol normaliser
    [normalize_symbol], the order submitter [place_order_with_retry] and the
    [webhook] handler, with the exchange client as an abstract stateful
    collaborator and every call, sleep and print recorded in an event log. *)

From Stdlib Require Import ZArith NArith String Ascii List Lia Bool.
From Stdlib Require Import Floats.SpecFloat.
From stdpp Require Import base option list gmap.

Import ListNotations.
Local Open Scope N_scope.

(** ** Python strings

    A Python [str] is a sequence of Unicode code points. *)

Module PyStr.

Abbreviation codepoint := N.
Abbreviation pystr := (list N).

(** A source literal; every literal of [main.py] is ASCII. *)
Definition py (s : string) : pystr :=
  List.map N_of_ascii (list_ascii_of_string s).

Definition str_eqb (a b : pystr) : bool := bool_decide (a = b).

(** [sub in s]: substring search. *)
Fixpoint startswith (s sub : pystr) {struct sub} : bool :=
  match sub, s with
  | [], _ => true
  | _ :: _, [] => false
  | c :: sub', d :: s' => (c =? d) && startswith s' sub'
  end.

Fixpoint contains (sub s : pystr) : bool :=
  startswith s sub ||
  match s with
  | [] => false
  | _ :: s' => contains sub s'
  end.

(** [s.replace(old, new)]: every non-overlapping occurrence of [old], found
    left to right, becomes [new]; an empty [old] matches before every
    character and at the end.  [skip] counts the characters of a match that
    are still to be dropped. *)
Fixpoint replace_from (old new : pystr) (skip : nat) (s : pystr) : pystr :=
  match s with
  | [] => match skip, old with
          | O, [] => new
          | _, _ => []
          end
  | c :: s' =>
      match skip with
      | S k => replace_from old new k s'
      | O =>
          match old with
          | [] => new ++ c :: replace_from old new O s'
          | _ :: old' =>
              if startswith s old
              then new ++ replace_from old new (List.length old') s'
              else c :: replace_from old new O s'
          end
      end
  end.

Definition replace (s old new : pystr) : pystr := replace_from old new O s.

(** The interpreter's Unicode database: the full case mappings of the
    non-ASCII code points and the context rule for capital sigma.  It is
    part of the Python runtime, not of this repository, and is taken as a
    parameter; the ASCII range is written out. *)
Record UnicodeData := {
  to_upper_full : codepoint -> pystr;
  to_lower_full : codepoint -> pystr;
  handle_capital_sigma : pystr -> nat -> codepoint
}.

Definition is_ascii (c : codepoint) : bool := c <? 128.

Definition ascii_toupper (c : codepoint) : codepoint :=
  if (97 <=? c) && (c <=? 122) then c - 32 else c.

Definition ascii_tolower (c : codepoint) : codepoint :=
  if (65 <=? c) && (c <=? 90) then c + 32 else c.

Definition upper_ucs4 (db : UnicodeData) (c : codepoint) : pystr :=
  if is_ascii c then [ascii_toupper c] else to_upper_full db c.

Definition lower_ucs4 (db : UnicodeData) (data : pystr) (i : nat)
    (c : codepoint) : pystr :=
  if is_ascii c then [ascii_tolower c]
  else if c =? 931 then [handle_capital_sigma db data i]
  else to_lower_full db c.

(** [s.upper()] *)
Definition upper (db : UnicodeData) (s : pystr) : pystr :=
  flat_map (upper_ucs4 db) s.

(** [s.lower()] *)
Definition lower (db : UnicodeData) (s : pystr) : pystr :=
  List.concat (imap (lower_ucs4 db s) s).

(** [c.isspace()] *)
Definition isspace (c : codepoint) : bool :=
  ((9 <=? c) && (c <=? 13)) || ((28 <=? c) && (c <=? 32)) ||
  (c =? 133) || (c =? 160) || (c =? 5760) ||
  ((8192 <=? c) && (c <=? 8202)) ||
  (c =? 8232) || (c =? 8233) || (c =? 8239) || (c =? 8287) || (c =? 12288).

Fixpoint lstrip (s : pystr) : pystr :=
  match s with
  | [] => []
  | c :: s' => if isspace c then lstrip s' else s
  end.

Definition rstrip (s : pystr) : pystr := rev (lstrip (rev s)).

(** [s.strip()] *)
Definition strip (s : pystr) : pystr := rstrip (lstrip s).

End PyStr.

Import PyStr.

(** ** Symbol Normalizer *)

Definition normalize_symbol (db : UnicodeData) (s : pystr) : pystr :=
  if contains (py "/") s then s
  else upper db (replace s (py "_") (py "/")).

(** The normaliser as the specification words it: the separator is the
    character ['/'], and every underscore is replaced one by one. *)
Definition slash : codepoint := 47.
Definition underscore : codepoint := 95.

Definition has_separator (s : pystr) : Prop := slash ∈ s.

Definition subst_underscores (s : pystr) : pystr :=
  List.map (fun c => if c =? underscore then slash else c) s.

(** ** Python values, exceptions and the event log *)

(** A Python [float]: an IEEE 754 binary64 value. *)
Abbreviation float := spec_float.

(** The values an order dictionary of the exchange client holds. *)
Inductive pyval :=
| VNone
| VBool (b : bool)
| VInt (z : Z)
| VFloat (f : float)
| VStr (s : pystr)
| VOpaque (repr : pystr).

(** An order as the client returns it: a [dict] keyed by strings. *)
Abbreviation order := (gmap (list N) pyval).

(** [d.get(k)] *)
Definition dict_get (d : order) (k : pystr) : pyval := default VNone (d !! k).

(** [v == s] for a string literal [s]. *)
Definition val_eq_str (v : pyval) (s : pystr) : bool :=
  match v with
  | VStr t => str_eqb t s
  | _ => false
  end.

(** [v in (a, b)] *)
Definition in_pair (v : pyval) (a b : pystr) : bool :=
  val_eq_str v a || val_eq_str v b.

Inductive exn :=
| ValueError (msg : pystr)
| KeyError (key : pystr)
| TypeError (msg : pystr)
| OverflowError (msg : pystr)
| ExchangeError (cls msg : pystr).

Inductive outcome (A : Type) :=
| Ok (a : A)
| Raised (e : exn).
Arguments Ok {A} a.
Arguments Raised {A} e.

(** Calls on the module-level [exchange] client. *)
Inductive call :=
| LoadMarkets
| CreateMarketBuyOrder (symbol : pystr) (amount : float)
| CreateMarketSellOrder (symbol : pystr) (amount : float)
| CreateLimitBuyOrder (symbol : pystr) (amount price : float)
| CreateLimitSellOrder (symbol : pystr) (amount price : float)
| FetchOrder (id : pyval) (symbol : pystr).

Inductive sink := log_order | log_order_to_gsheet | notify_remote.

Inductive event :=
| ECall (c : call)
| ESleep (secs : Z)
| EPrintPlacing (side : pystr) (amount : float) (symbol order_type : pystr)
    (price : option float)
| EPrintFailed (attempt : Z) (e : exn)
| EAddTask (task : sink) (o : order).

Definition is_load (e : event) : bool :=
  match e with ECall LoadMarkets => true | _ => false end.

Definition is_placement (e : event) : bool :=
  match e with
  | ECall (CreateMarketBuyOrder _ _) | ECall (CreateMarketSellOrder _ _)
  | ECall (CreateLimitBuyOrder _ _ _) | ECall (CreateLimitSellOrder _ _ _) => true
  | _ => false
  end.

Definition is_fetch (e : event) : bool :=
  match e with ECall (FetchOrder _ _) => true | _ => false end.

Definition is_call (e : event) : bool :=
  match e with ECall _ => true | _ => false end.

Definition is_sleep (e : event) : bool :=
  match e with ESleep _ => true | _ => false end.

Definition is_failed (e : event) : bool :=
  match e with EPrintFailed _ _ => true | _ => false end.

Definition count (p : event -> bool) (evs : list event) : nat :=
  List.length (List.filter p evs).

(** ** The exchange collaborator

    The client is opaque: each operation acts on the state [W] of the remote
    service and either returns or raises. *)
Record Exchange (W : Type) := {
  load_markets : W -> W * outcome unit;
  create_market_buy_order : pystr -> float -> W -> W * outcome order;
  create_market_sell_order : pystr -> float -> W -> W * outcome order;
  create_limit_buy_order : pystr -> float -> float -> W -> W * outcome order;
  create_limit_sell_order : pystr -> float -> float -> W -> W * outcome order;
  fetch_order : pyval -> pystr -> W -> W * outcome order
}.
Arguments load_markets {W}.
Arguments create_market_buy_order {W}.
Arguments create_market_sell_order {W}.
Arguments create_limit_buy_order {W}.
Arguments create_limit_sell_order {W}.
Arguments fetch_order {W}.

(** [MAX_RETRIES] and [RETRY_DELAY]: integers read from the environment. *)
Record Config := { MAX_RETRIES : Z; RETRY_DELAY : Z }.

(** ** Computations: exchange state, event log, exceptions *)

Definition M (W A : Type) : Type := W -> W * list event * outcome A.

Section Monad.
Context {W : Type}.

Definition ret {A} (a : A) : M W A := fun w => (w, [], Ok a).

Definition raise {A} (e : exn) : M W A := fun w => (w, [], Raised e).

Definition bind {A B} (m : M W A) (k : A -> M W B) : M W B :=
  fun w =>
    match m w with
    | (w1, l1, Ok a) =>
        match k a w1 with
        | (w2, l2, r) => (w2, l1 ++ l2, r)
        end
    | (w1, l1, Raised e) => (w1, l1, Raised e)
    end.

(** [try: m  except Exception as e: h e] *)
Definition try_except {A} (m : M W A) (h : exn -> M W A) : M W A :=
  fun w =>
    match m w with
    | (w1, l1, Ok a) => (w1, l1, Ok a)
    | (w1, l1, Raised e) =>
        match h e w1 with
        | (w2, l2, r) => (w2, l1 ++ l2, r)
        end
    end.

Definition emit (e : event) : M W unit := fun w => (w, [e], Ok tt).

Definition invoke {A} (c : call) (op : W -> W * outcome A) : M W A :=
  fun w => match op w with (w1, r) => (w1, [ECall c], r) end.
End Monad.

#[global] Instance M_ret {W : Type} : MRet (M W) := fun A => @ret W A.
#[global] Instance M_bind {W : Type} : MBind (M W) := fun A B k m => @bind W A B m k.

(** [time.sleep] belongs to the interpreter and the platform, not to this
    repository: whether a length is accepted depends on both (the sign, the
    range of the nanosecond clock, the time already on the clock).  It is
    taken as an operation on the outside world that returns or raises. *)
Class Clock (W : Type) := { sleep : Z -> W -> W * outcome unit }.

(** [time.sleep(secs)]: the delay is logged when the call returns. *)
Definition time_sleep {W : Type} `{!Clock W} (secs : Z) : M W unit :=
  fun w =>
    match sleep secs w with
    | (w1, Ok _) => (w1, [ESleep secs], Ok tt)
    | (w1, Raised e) => (w1, [], Raised e)
    end.

(** [range(lo, hi)] *)
Definition range (lo hi : Z) : list Z := seqZ lo (hi - lo).

(** [order['id']] *)
Definition getitem {W : Type} (d : order) (k : pystr) : M W pyval :=
  match d !! k with
  | Some v => mret v
  | None => raise (KeyError k)
  end.

(** ** Order Submitter *)

Section Submitter.
Context {W : Type} `{!Clock W} (exchange : Exchange W) (cfg : Config).

(** Lines 85-98: the order call chosen by [order_type] and [side]. *)
Definition dispatch (symbol side : pystr) (amount : float)
    (order_type : pystr) (price : option float) : M W order :=
  if str_eqb order_type (py "market") then
    if str_eqb side (py "buy")
    then invoke (CreateMarketBuyOrder symbol amount)
           (create_market_buy_order exchange symbol amount)
    else invoke (CreateMarketSellOrder symbol amount)
           (create_market_sell_order exchange symbol amount)
  else if str_eqb order_type (py "limit") then
    match price with
    | None => raise (ValueError (py "Missing price for limit order"))
    | Some p =>
        if str_eqb side (py "buy")
        then invoke (CreateLimitBuyOrder symbol amount p)
               (create_limit_buy_order exchange symbol amount p)
        else invoke (CreateLimitSellOrder symbol amount p)
               (create_limit_sell_order exchange symbol amount p)
    end
  else raise (ValueError (py "Unsupported order type")).

(** Lines 100-103: the check for a partial fill, then [return order]. *)
Definition follow_up (symbol : pystr) (o : order) : M W order :=
  if in_pair (dict_get o (py "status")) (py "open") (py "partial")
  then
    oid ← getitem o (py "id");
    invoke (FetchOrder oid symbol) (fetch_order exchange oid symbol)
  else mret o.

(** The body of the [try] block: one attempt. *)
Definition attempt_once (symbol side : pystr) (amount : float)
    (order_type : pystr) (price : option float) : M W order :=
  _ ← invoke LoadMarkets (load_markets exchange);
  o ← dispatch symbol side amount order_type price;
  follow_up symbol o.

(** The [except] clause of attempt number [attempt]. *)
Definition on_failure (attempt : Z) (e : exn) : M W unit :=
  _ ← emit (EPrintFailed attempt e);
  if (attempt <? MAX_RETRIES cfg)%Z then time_sleep (RETRY_DELAY cfg)
  else mret tt.

(** [raise last_exception]; raising [None] is a [TypeError]. *)
Definition raise_last (last_exception : option exn) : M W order :=
  match last_exception with
  | Some e => raise e
  | None => raise (TypeError (py "exceptions must derive from BaseException"))
  end.

(** The [for] loop over the remaining attempt numbers. *)
Fixpoint retry_loop (symbol side : pystr) (amount : float)
    (order_type : pystr) (price : option float)
    (attempts : list Z) (last_exception : option exn) : M W order :=
  match attempts with
  | [] => raise_last last_exception
  | attempt :: rest =>
      try_except (attempt_once symbol side amount order_type price)
        (fun e =>
           _ ← on_failure attempt e;
           retry_loop symbol side amount order_type price rest (Some e))
  end.

Definition place_order_with_retry (symbol side : pystr) (amount : float)
    (order_type : pystr) (price : option float) : M W order :=
  _ ← emit (EPrintPlacing side amount symbol order_type price);
  retry_loop symbol side amount order_type price
    (range 1 (MAX_RETRIES cfg + 1)) None.



End Submitter.

(** ** Webhook Handler *)

Module TVPayload.
Record t := {
  symbol : pystr;
  action : pystr;
  quantity : float;
  order_type : pystr;
  price : option float;
  client_id : option pystr
}.
End TVPayload.

(** The [detail] of an [HTTPException]: a literal, or the f-string
    [f'Order placement failed: {e}']. *)
Inductive http_detail :=
| Detail (s : pystr)
| DetailOf (prefix : pystr) (e : exn).

(** What the handler gives back: the JSON body
    [{'status': 'ok', 'order_id': ..., 'raw': ...}] or an [HTTPException]. *)
Inductive http_result :=
| Response (status : pystr) (order_id : pyval) (raw : order)
| HTTPException (status_code : Z) (detail : http_detail).

Definition http_status (r : http_result) : Z :=
  match r with
  | Response _ _ _ => 200
  | HTTPException c _ => c
  end.

Section Webhook.
Context {W : Type} `{!Clock W} (db : UnicodeData) (exchange : Exchange W)
  (cfg : Config).

(** [asyncio.to_thread] runs the submitter to completion before the
    handler resumes; a single request is modelled sequentially. *)
Definition webhook (payload : TVPayload.t) : W -> W * list event * http_result :=
  fun w =>
    let symbol := normalize_symbol db (TVPayload.symbol payload) in
    let side := lower db (strip (TVPayload.action payload)) in
    if negb (str_eqb side (py "buy") || str_eqb side (py "sell")) then
      (w, [], HTTPException 400 (Detail (py "action must be BUY or SELL")))
    else
      match place_order_with_retry exchange cfg symbol side
              (TVPayload.quantity payload) (TVPayload.order_type payload)
              (TVPayload.price payload) w with
      | (w1, l1, Raised e) =>
          (w1, l1, HTTPException 500 (DetailOf (py "Order placement failed: ") e))
      | (w1, l1, Ok o) =>
          (w1,
           l1 ++ [EAddTask log_order o; EAddTask log_order_to_gsheet o;
                  EAddTask notify_remote o],
           Response (py "ok") (dict_get o (py "id")) o)
      end.
End Webhook.

(** ** Concrete collaborators used to run the program *)

(** A Unicode table that leaves every non-ASCII code point alone. *)
Definition ident_db : UnicodeData :=
  {| to_upper_full := fun c => [c];
     to_lower_full := fun c => [c];
     handle_capital_sigma := fun _ _ => 963 |}.

(** A scripted exchange: its state is the list of responses still to be
    given, one per call, whatever the call. *)
Definition script := list (outcome order).

Definition exhausted : exn := ExchangeError (py "NetworkError") (py "no response").

Definition next_response (w : script) : script * outcome order :=
  match w with
  | [] => ([], Raised exhausted)
  | r :: w' => (w', r)
  end.

Definition scripted : Exchange script :=
  {| load_markets := fun w =>
       match next_response w with
       | (w', Ok _) => (w', Ok tt)
       | (w', Raised e) => (w', Raised e)
       end;
     create_market_buy_order := fun _ _ => next_response;
     create_market_sell_order := fun _ _ => next_response;
     create_limit_buy_order := fun _ _ _ => next_response;
     create_limit_sell_order := fun _ _ _ => next_response;
     fetch_order := fun _ _ => next_response |}.

(** A clock for the runs below, after CPython's [time.sleep] (3.12, Linux):
    a length beyond the range of its 64-bit nanosecond time type is an
    [OverflowError], a negative length within that range a [ValueError], and
    any other sleep elapses at once.  The runs below sleep for 2 or for -1
    seconds; lengths near the end of the range, which the operating system
    may refuse as well, are not used. *)
Definition interpreter_sleep (secs : Z) : outcome unit :=
  if ((secs <? -9223372036) || (9223372036 <? secs))%Z
  then Raised (OverflowError (py "timestamp too large to convert to C _PyTime_t"))
  else if (secs <? 0)%Z
  then Raised (ValueError (py "sleep length must be non-negative"))
  else Ok tt.

#[global] Instance script_clock : Clock script :=
  {| sleep := fun secs w => (w, interpreter_sleep secs) |}.

#[global] Instance nat_clock : Clock nat :=
  {| sleep := fun secs n => (n, interpreter_sleep secs) |}.

Definition order_with (id status : pystr) : order :=
  <[py "id" := VStr id]> (<[py "status" := VStr status]> ∅).

Definition timeout_error : exn := ExchangeError (py "RequestTimeout") (py "timed out").

Definition default_cfg : Config := {| MAX_RETRIES := 3; RETRY_DELAY := 2 |}.

(** ** The vocabulary of the specification *)

(** [v] spells [target] up to the case of its ASCII letters. *)
Definition same_letter (t c : codepoint) : Prop := c = t ∨ c = ascii_toupper t.

Definition case_variant (target v : pystr) : Prop := Forall2 same_letter target v.

(** [s] is [v] with whitespace before and after. *)
Definition padded (v s : pystr) : Prop :=
  ∃ pre post, Forall (fun c => isspace c = true) pre ∧
              Forall (fun c => isspace c = true) post ∧ s = pre ++ v ++ post.

(** [lower(strip(action))], the side the handler works with. *)
Definition side_of (db : UnicodeData) (payload : TVPayload.t) : pystr :=
  lower db (strip (TVPayload.action payload)).

Definition valid_side (side : pystr) : Prop := side = py "buy" ∨ side = py "sell".




(** The handler, given [payload], calls the submitter with these arguments. *)
Definition submits (db : UnicodeData) (payload : TVPayload.t)
    (symbol side : pystr) (amount : float) (order_type : pystr)
    (price : option float) : Prop :=
  valid_side side ∧ side_of db payload = side ∧
  normalize_symbol db (TVPayload.symbol payload) = symbol ∧
  TVPayload.quantity payload = amount ∧
  TVPayload.order_type payload = order_type ∧
  TVPayload.price payload = price.

(** The 500 response of the handler: the placement failure carrying its cause. *)
Definition placement_failure (e : exn) : http_result :=
  HTTPException 500 (DetailOf (py "Order placement failed: ") e).

(** The property of the Unicode uppercase table that [normalize_symbol]
    relies on: what a non-ASCII code point maps to is already upper case and
    is neither of the two separators. *)
Definition upper_closed (db : UnicodeData) : Prop :=
  ∀ c d, is_ascii c = false → d ∈ to_upper_full db c →
    upper_ucs4 db d = [d] ∧ d ≠ slash ∧ d ≠ underscore.

(** A table with two real entries: sharp s becomes "SS", y with diaeresis
    becomes its capital. *)
Definition sample_db : UnicodeData :=
  {| to_upper_full := fun c =>
       if c =? 223 then [83; 83] else if c =? 255 then [376] else [c];
     to_lower_full := fun c => if c =? 376 then [255] else [c];
     handle_capital_sigma := fun _ _ => 963 |}.

(** "straße_usdt": a ticker with a non-ASCII letter. *)
Definition sharp_s_pair : pystr := py "stra" ++ [223] ++ py "e_usdt".

Definition btc_usdt : pystr := py "BTC/USDT".

(** The quantity [1.0]. *)
Definition one : float := S754_finite false 4503599627370496 (-52).

Definition filled : order := order_with (py "7") (py "closed").
Definition resting : order := order_with (py "7") (py "open").

(** A payload with everything but the order type and price fixed. *)
Definition buy_payload (order_type : pystr) (price : option float) : TVPayload.t :=
  {| TVPayload.symbol := py "btc_usdt";
     TVPayload.action := py "BUY";
     TVPayload.quantity := one;
     TVPayload.order_type := order_type;
     TVPayload.price := price;
     TVPayload.client_id := None |}.


(** Two attempts time out, the third fills the order. *)
Definition third_time_lucky : script :=
  [Raised timeout_error;
   Ok ∅; Raised timeout_error;
   Ok ∅; Ok filled].

(** Six calls, all answered. *)
Definition always_up : script := [Ok ∅; Ok ∅; Ok ∅; Ok ∅; Ok ∅; Ok ∅].


(** The order rests open; the follow-up fetch finds it filled. *)
Definition open_then_filled : script := [Ok ∅; Ok resting; Ok filled].

(** An open order that carries no id. *)
Definition anonymous : order := <[py "status" := VStr (py "open")]> ∅.

(** A market order whose action is written [" BUY "]. *)
Definition shouting_payload : TVPayload.t :=
  {| TVPayload.symbol := py "btc_usdt";
     TVPayload.action := py " BUY ";
     TVPayload.quantity := one;
     TVPayload.order_type := py "market";
     TVPayload.price := None;
     TVPayload.client_id := None |}.

(** A payload whose action spells "sell" in mixed case. *)
Definition mixed_case_sell_payload : TVPayload.t :=
  {| TVPayload.symbol := py "btc_usdt";
     TVPayload.action := py "SeLl";
     TVPayload.quantity := one;
     TVPayload.order_type := py "market";
     TVPayload.price := None;
     TVPayload.client_id := None |}.

(** A payload whose action is "BUY" with U+00DA for its U. *)
Definition accented_payload : TVPayload.t :=
  {| TVPayload.symbol := py "btc_usdt";
     TVPayload.action := [66; 218; 89];
     TVPayload.quantity := one;
     TVPayload.order_type := py "market";
     TVPayload.price := None;
     TVPayload.client_id := None |}.

(** A payload whose action is neither side. *)
Definition hold_payload : TVPayload.t :=
  {| TVPayload.symbol := py "btc_usdt";
     TVPayload.action := py "hold";
     TVPayload.quantity := one;
     TVPayload.order_type := py "market";
     TVPayload.price := None;
     TVPayload.client_id := None |}.

(** An exchange that answers every call, counting the calls it gets. *)
Definition steady : Exchange nat :=
  {| load_markets := fun n => (S n, Ok tt);
     create_market_buy_order := fun _ _ n => (S n, Ok filled);
     create_market_sell_order := fun _ _ n => (S n, Ok filled);
     create_limit_buy_order := fun _ _ _ n => (S n, Ok filled);
     create_limit_sell_order := fun _ _ _ n => (S n, Ok filled);
     fetch_order := fun _ _ n => (S n, Ok filled) |}.

(** Configurations at the edge: no attempt at all, and a delay that
    [time.sleep] refuses. *)
Definition no_attempt_cfg : Config := {| MAX_RETRIES := 0; RETRY_DELAY := 2 |}.
Definition negative_delay_cfg : Config := {| MAX_RETRIES := 3; RETRY_DELAY := -1 |}.

(** ** Reading a run *)

Definition world_of {W R : Type} (run : W * list event * R) : W := fst (fst run).
Definition log_of {W R : Type} (run : W * list event * R) : list event := snd (fst run).
Definition outcome_of {W R : Type} (run : W * list event * R) : R := snd run.

Definition is_task (e : event) : bool :=
  match e with EAddTask _ _ => true | _ => false end.

Definition is_buy_call (e : event) : bool :=
  match e with
  | ECall (CreateMarketBuyOrder _ _) | ECall (CreateLimitBuyOrder _ _ _) => true
  | _ => false
  end.

Definition is_sell_call (e : event) : bool :=
  match e with
  | ECall (CreateMarketSellOrder _ _) | ECall (CreateLimitSellOrder _ _ _) => true
  | _ => false
  end.

(** The symbol and amount an order call carries. *)
Definition call_symbol (c : call) : option pystr :=
  match c with
  | LoadMarkets => None
  | CreateMarketBuyOrder s _ | CreateMarketSellOrder s _
  | CreateLimitBuyOrder s _ _ | CreateLimitSellOrder s _ _
  | FetchOrder _ s => Some s
  end.

Definition call_amount (c : call) : option float :=
  match c with
  | CreateMarketBuyOrder _ a | CreateMarketSellOrder _ a
  | CreateLimitBuyOrder _ a _ | CreateLimitSellOrder _ a _ => Some a
  | LoadMarkets | FetchOrder _ _ => None
  end.

Definition all_ascii (s : pystr) : Prop := Forall (fun c => is_ascii c = true) s.

(** ** The logging and notification sinks *)

(** [str] and truth value of a Python object: the interpreter's builtins,
    taken as parameters. *)
Record Builtins := {
  str_of : pyval -> pystr;
  truth : pyval -> bool
}.

(** [x or y] *)
Definition or_else (b : Builtins) (x y : pyval) : pyval :=
  if truth b x then x else y.

(** A record handed to [csv.writer.writerow] or [sheet.append_row]. *)
Abbreviation row := (list pyval).

(** The file at [CSV_PATH]: absent, or the records written so far. *)
Abbreviation csv_file := (option (list (list pyval))).

Definition header : row :=
  List.map VStr
    [py "timestamp_utc"; py "id"; py "symbol"; py "side"; py "type"; py "price";
     py "amount"; py "status"; py "filled"; py "remaining"; py "info"].

(** Lines 113-132.  [now] is [datetime.now(timezone.utc).isoformat()];
    opening in mode ['a'] creates the file. *)
Definition log_order_file (b : Builtins) (now : pystr) (o : order)
    (file : csv_file) : csv_file :=
  let exists_ := match file with Some _ => true | None => false end in
  let f := default [] file in
  let f := if negb exists_ then f ++ [header] else f in
  Some (f ++ [[VStr now;
               dict_get o (py "id");
               dict_get o (py "symbol");
               dict_get o (py "side");
               dict_get o (py "type");
               dict_get o (py "price");
               dict_get o (py "amount");
               dict_get o (py "status");
               dict_get o (py "filled");
               dict_get o (py "remaining");
               VStr (str_of b (or_else b (dict_get o (py "info")) (VStr [])))]]).

(** Lines 31-45: the row given to [sheet.append_row(row,
    value_input_option="RAW")]. *)
Definition gsheet_row (b : Builtins) (now : pystr) (o : order) : row :=
  [VStr now;
   dict_get o (py "id");
   dict_get o (py "symbol");
   dict_get o (py "side");
   dict_get o (py "type");
   dict_get o (py "price");
   dict_get o (py "amount");
   dict_get o (py "status");
   dict_get o (py "filled");
   dict_get o (py "remaining");
   VStr (str_of b (or_else b (dict_get o (py "info")) (VStr [])))].

(** The spreadsheet: each append either adds the row or raises. *)
Definition log_order_to_gsheet_run {S : Type}
    (append_row : row -> S -> S * outcome unit)
    (b : Builtins) (now : pystr) (o : order) : S -> S * outcome unit :=
  append_row (gsheet_row b now o).

(** The HTTP client of [notify_remote]: entering and leaving the
    [async with] block, the POST, and [raise_for_status] on its response. *)
Record HttpClient (H Resp : Type) := {
  client_enter : H -> H * outcome unit;
  client_post : pystr -> order -> Z -> H -> H * outcome Resp;
  raise_for_status : Resp -> outcome unit;
  client_exit : H -> H * outcome unit
}.
Arguments client_enter {H Resp}.
Arguments client_post {H Resp}.
Arguments raise_for_status {H Resp}.
Arguments client_exit {H Resp}.

Inductive net_event :=
| NEnter
| NPost (url : pystr) (body : order) (timeout : Z)
| NPrintFailed (e : exn)
| NExit.

(** Lines 135-143.  [url] is [REMOTE_NOTIFY_URL]; the timeout is [10.0]
    seconds. *)
Definition notify_remote_run {H Resp : Type} (client : HttpClient H Resp)
    (url : option pystr) (o : order) : H -> H * list net_event * outcome unit :=
  fun h =>
    match url with
    | None | Some [] => (h, [], Ok tt)
    | Some (c :: u) =>
        match client_enter client h with
        | (h1, Raised e) => (h1, [NEnter], Raised e)
        | (h1, Ok _) =>
            let '(h2, l2) :=
              match client_post client (c :: u) o 10 h1 with
              | (h2, Raised e) => (h2, [NPost (c :: u) o 10; NPrintFailed e])
              | (h2, Ok resp) =>
                  match raise_for_status client resp with
                  | Raised e => (h2, [NPost (c :: u) o 10; NPrintFailed e])
                  | Ok _ => (h2, [NPost (c :: u) o 10])
                  end
              end in
            match client_exit client h2 with
            | (h3, r) => (h3, NEnter :: l2 ++ [NExit], r)
            end
        end
    end.

Definition is_post (e : net_event) : bool :=
  match e with NPost _ _ _ => true | _ => false end.

(** ** Start-up: the module-level code *)

(** The process environment after [load_dotenv()]. *)
Abbreviation environ := (gmap (list N) (list N)).

(** [not s] for an optional string: unset or empty. *)
Definition blank (s : option pystr) : bool :=
  match s with
  | None | Some [] => true
  | Some (_ :: _) => false
  end.

Record Settings := {
  GATE_API_KEY : option pystr;
  GATE_API_SECRET : option pystr;
  REMOTE_NOTIFY_URL : option pystr;
  CSV_PATH : pystr;
  retry : Config;
  SERVICE_ACCOUNT_FILE : pystr;
  SHEET_ID : option pystr;
  sandbox : bool
}.

Inductive startup_error :=
| BadInteger (name : pystr) (e : exn)
| SheetUnavailable (e : exn)
| MissingCredentials (msg : pystr).

(** Lines 14-60.  [int_of] is [int] on a string; [open_sheet] stands for
    loading the service account, authorising and opening the sheet. *)
Definition startup (db : UnicodeData) (int_of : pystr -> outcome Z)
    (open_sheet : pystr -> option pystr -> outcome unit) (env : environ)
    : startup_error + Settings :=
  let key := env !! py "GATEIO_API_KEY" in
  let secret := env !! py "GATEIO_API_SECRET" in
  let notify := env !! py "REMOTE_NOTIFY_URL" in
  let csv := default (py "orders.csv") (env !! py "CSV_PATH") in
  match (match env !! py "MAX_RETRIES" with
         | None => Ok 3%Z
         | Some v => int_of v
         end) with
  | Raised e => inl (BadInteger (py "MAX_RETRIES") e)
  | Ok max_retries =>
      match (match env !! py "RETRY_DELAY" with
             | None => Ok 2%Z
             | Some v => int_of v
             end) with
      | Raised e => inl (BadInteger (py "RETRY_DELAY") e)
      | Ok retry_delay =>
          let file := default (py "/app/credentials/service_account.json")
                        (env !! py "GOOGLE_SERVICE_ACCOUNT") in
          let sheet_id := env !! py "GOOGLE_SHEET_ID" in
          match open_sheet file sheet_id with
          | Raised e => inl (SheetUnavailable e)
          | Ok _ =>
              if blank key || blank secret then
                inl (MissingCredentials
                       (py "Missing Gate.io API credentials in environment"))
              else
                inr {| GATE_API_KEY := key;
                       GATE_API_SECRET := secret;
                       REMOTE_NOTIFY_URL := notify;
                       CSV_PATH := csv;
                       retry := {| MAX_RETRIES := max_retries;
                                   RETRY_DELAY := retry_delay |};
                       SERVICE_ACCOUNT_FILE := file;
                       SHEET_ID := sheet_id;
                       sandbox :=
                         str_eqb
                           (lower db (default (py "false")
                                        (env !! py "GATEIO_SANDBOX")))
                           (py "true") |}
          end
      end
  end.

(** ** More concrete collaborators *)

(** Builtins on the values that occur in the examples. *)
Definition sample_builtins : Builtins :=
  {| str_of := fun v => match v with VStr s | VOpaque s => s | _ => [] end;
     truth := fun v =>
       match v with
       | VNone => false
       | VBool b => b
       | VInt z => negb (z =? 0)%Z
       | VStr s => negb (bool_decide (s = []))
       | _ => true
       end |}.

(** An HTTP client whose POST is answered by the status code held in its
    state, and which rejects 4xx and 5xx. *)
Definition status_client : HttpClient Z Z :=
  {| client_enter := fun h => (h, Ok tt);
     client_post := fun _ _ _ h =>
       if (h =? 0)%Z then (h, Raised timeout_error) else (h, Ok h);
     raise_for_status := fun code =>
       if (400 <=? code)%Z then Raised (ExchangeError (py "HTTPStatusError") [])
       else Ok tt;
     client_exit := fun h => (h, Ok tt) |}.

Definition hook_url : pystr := py "https://example.org/hook".

(** Decimal digits only; anything else is a [ValueError]. *)
Definition sample_int (s : pystr) : outcome Z :=
  match s with
  | [d] => if (48 <=? d) && (d <=? 57) then Ok (Z.of_N (d - 48))
           else Raised (ValueError (py "invalid literal for int()"))
  | _ => Raised (ValueError (py "invalid literal for int()"))
  end.

Definition sample_env : environ :=
  <[py "GATEIO_API_KEY" := py "k"]>
    (<[py "GATEIO_API_SECRET" := py "s"]>
       (<[py "GATEIO_SANDBOX" := py "True"]>
          (<[py "MAX_RETRIES" := py "5"]> ∅))).

(** A spreadsheet that always opens. *)
Definition sheet_opens (file : pystr) (sheet_id : option pystr) : outcome unit :=
  Ok tt.

(** What start-up makes of [sample_env]. *)
Definition sample_settings : Settings :=
  {| GATE_API_KEY := Some (py "k");
     GATE_API_SECRET := Some (py "s");
     REMOTE_NOTIFY_URL := None;
     CSV_PATH := py "orders.csv";
     retry := {| MAX_RETRIES := 5; RETRY_DELAY := 2 |};
     SERVICE_ACCOUNT_FILE := py "/app/credentials/service_account.json";
     SHEET_ID := None;
     sandbox := true |}.

(** ** More vocabulary of the specification *)





(** The letters of the two sides. *)
Definition side_letter (c : codepoint) : Prop := c ∈ py "buysel".

(** The property of the Unicode lowercase table that reading the action
    relies on: no non-ASCII code point lower-cases to nothing or to text
    with a letter of "buy" or "sell" in it. *)
Definition lower_foreign (db : UnicodeData) : Prop :=
  ∀ data i c, is_ascii c = false →
    lower_ucs4 db data i c ≠ [] ∧
    ∀ d, d ∈ lower_ucs4 db data i c → ¬ side_letter d.

(** The order rests open and its follow-up fetch times out; the second
    attempt fills the order. *)
Definition fetch_times_out : script :=
  [Ok ∅; Ok resting; Raised timeout_error; Ok ∅; Ok filled].

(** * Properties *)

(** ** Strings *)

Lemma str_eqb_eq (a b : pystr) : str_eqb a b = true ↔ a = b.
Proof. unfold str_eqb. apply bool_decide_eq_true. Qed.

Lemma str_eqb_neq (a b : pystr) : a ≠ b → str_eqb a b = false.
Proof. intros H. unfold str_eqb. by apply bool_decide_eq_false. Qed.

Lemma contains_char (c : codepoint) (s : pystr) :
  contains [c] s = true ↔ c ∈ s.
Proof.
  induction s as [|d s IH]; simpl.
  - split; [discriminate | by intros ?%elem_of_nil].
  - rewrite orb_true_iff, andb_true_r, N.eqb_eq, IH, elem_of_cons. tauto.
Qed.

Lemma contains_char_false (c : codepoint) (s : pystr) :
  contains [c] s = false ↔ c ∉ s.
Proof. rewrite <- contains_char. destruct (contains [c] s); naive_solver. Qed.

Lemma replace_char (a b : codepoint) (s : pystr) :
  replace s [a] [b] = List.map (fun c => if c =? a then b else c) s.
Proof.
  unfold replace. induction s as [|c s IH]; simpl; [done|].
  rewrite andb_true_r, (N.eqb_sym a c).
  destruct (c =? a); simpl; by rewrite IH.
Qed.

Lemma subst_underscores_id (s : pystr) :
  underscore ∉ s → subst_underscores s = s.
Proof.
  unfold subst_underscores. induction s as [|c s IH]; simpl; [done|].
  rewrite not_elem_of_cons. intros [Hc Hs].
  destruct (N.eqb_spec c underscore); [congruence|]. by rewrite IH.
Qed.

Lemma subst_underscores_slash (s : pystr) :
  underscore ∈ s → slash ∈ subst_underscores s.
Proof.
  unfold subst_underscores. induction s as [|c s IH]; simpl.
  - by intros ?%elem_of_nil.
  - rewrite elem_of_cons. intros [<-|H]; simpl.
    + apply elem_of_cons. by left.
    + apply elem_of_cons. right. by apply IH.
Qed.

Lemma ascii_toupper_twice (c : codepoint) :
  ascii_toupper (ascii_toupper c) = ascii_toupper c.
Proof.
  unfold ascii_toupper.
  destruct ((97 <=? c) && (c <=? 122)) eqn:E; [|by rewrite E].
  apply andb_true_iff in E as [?%N.leb_le ?%N.leb_le].
  destruct (97 <=? c - 32) eqn:E1; [apply N.leb_le in E1; lia | done].
Qed.

Lemma ascii_toupper_ascii (c : codepoint) :
  is_ascii c = true → is_ascii (ascii_toupper c) = true.
Proof.
  unfold is_ascii, ascii_toupper. intros H%N.ltb_lt.
  destruct ((97 <=? c) && (c <=? 122)); apply N.ltb_lt; lia.
Qed.

Lemma ascii_toupper_sep (c x : codepoint) :
  x = slash ∨ x = underscore → ascii_toupper c = x → c = x.
Proof.
  unfold ascii_toupper, slash, underscore.
  destruct ((97 <=? c) && (c <=? 122)) eqn:E; [|done].
  apply andb_true_iff in E as [?%N.leb_le ?%N.leb_le]. lia.
Qed.

Section Upper.
Variable db : UnicodeData.
Hypothesis Hdb : upper_closed db.

Lemma upper_ucs4_out (c d : codepoint) :
  d ∈ upper_ucs4 db c →
  upper_ucs4 db d = [d] ∧ (d = slash → c = slash) ∧ (d = underscore → c = underscore).
Proof using Hdb.
  unfold upper_ucs4 at 1. destruct (is_ascii c) eqn:Ec.
  - intros ->%list_elem_of_singleton. split_and!.
    + unfold upper_ucs4. rewrite ascii_toupper_ascii by done.
      by rewrite ascii_toupper_twice.
    + intros H. apply (ascii_toupper_sep c slash); auto.
    + intros H. apply (ascii_toupper_sep c underscore); auto.
  - intros Hd. destruct (Hdb c d Ec Hd) as (H1 & H2 & H3). done.
Qed.

Lemma upper_idempotent (s : pystr) : upper db (upper db s) = upper db s.
Proof using Hdb.
  unfold upper. induction s as [|c s IH]; [done|].
  cbn [flat_map]. rewrite flat_map_app, IH. f_equal.
  assert (H : ∀ d, d ∈ upper_ucs4 db c → upper_ucs4 db d = [d])
    by (intros d Hd; by apply upper_ucs4_out in Hd as [? _]).
  induction (upper_ucs4 db c) as [|d l IHl]; [done|].
  cbn [flat_map]. rewrite (H d) by (apply elem_of_cons; by left).
  cbn [app]. f_equal.
  apply IHl. intros d' Hd'. apply H, elem_of_cons. by right.
Qed.

Lemma upper_sep_inv (x : codepoint) (s : pystr) :
  x = slash ∨ x = underscore → x ∈ upper db s → x ∈ s.
Proof using Hdb.
  intros Hx. unfold upper. induction s as [|c s IH]; [done|].
  cbn [flat_map]. rewrite elem_of_app, elem_of_cons.
  intros [H|H]; [left|right; by apply IH].
  apply upper_ucs4_out in H as (_ & H1 & H2).
  destruct Hx; subst; symmetry; auto.
Qed.
End Upper.

Lemma upper_slash (db : UnicodeData) (s : pystr) :
  slash ∈ s → slash ∈ upper db s.
Proof.
  unfold upper. induction s as [|c s IH].
  - by intros ?%elem_of_nil.
  - cbn [flat_map]. rewrite elem_of_cons, elem_of_app.
    intros [<-|H]; [left|right; by apply IH].
    apply elem_of_cons. by left.
Qed.

Lemma normalize_symbol_unfold (db : UnicodeData) (s : pystr) :
  normalize_symbol db s =
  if contains [slash] s then s else upper db (subst_underscores s).
Proof.
  unfold normalize_symbol. change (py "/") with [slash].
  change (py "_") with [underscore]. by rewrite replace_char.
Qed.

Lemma sample_db_closed : upper_closed sample_db.
Proof.
  intros c d Hc Hd. unfold is_ascii in Hc. apply N.ltb_ge in Hc.
  unfold sample_db in Hd; simpl in Hd.
  assert (Hcase : d = 83 ∨ d = 376 ∨ (d = c ∧ c ≠ 223 ∧ c ≠ 255)).
  { destruct (N.eqb_spec c 223).
    - left. apply elem_of_cons in Hd as [->|Hd]; [done|].
      by apply list_elem_of_singleton in Hd.
    - destruct (N.eqb_spec c 255); apply list_elem_of_singleton in Hd; auto. }
  unfold slash, underscore.
  destruct Hcase as [->|[->|(-> & H1 & H2)]]; [by split_and! ..|].
  split_and!; [|lia..].
  unfold upper_ucs4, is_ascii. destruct (N.ltb_spec c 128); [lia|]. simpl.
  destruct (N.eqb_spec c 223); [done|]. by destruct (N.eqb_spec c 255).
Qed.

(** ** Symbol Normalizer *)

(** C5: [normalize_symbol] is a total function; a string that contains the
    separator ['/'] is returned unchanged, any other string is returned with
    every underscore replaced by the separator and the result upper-cased,
    and ["btc_usdt"] becomes ["BTC/USDT"]. *)
Theorem normalize_symbol_contract (db : UnicodeData) :
  (∀ s, has_separator s → normalize_symbol db s = s) ∧
  (∀ s, ¬ has_separator s →
        normalize_symbol db s = upper db (subst_underscores s)) ∧
  normalize_symbol db (py "btc_usdt") = py "BTC/USDT".
Proof.
  split_and!.
  - intros s Hs. rewrite normalize_symbol_unfold.
    by apply contains_char in Hs as ->.
  - intros s Hs. rewrite normalize_symbol_unfold.
    by apply contains_char_false in Hs as ->.
  - reflexivity.
Qed.

Lemma normalize_symbol_contract_witness :
  normalize_symbol sample_db (py "ETH/usdt") = py "ETH/usdt" ∧
  normalize_symbol sample_db (sharp_s_pair) =
    upper sample_db (subst_underscores (sharp_s_pair)).
Proof.
  destruct (normalize_symbol_contract sample_db) as (H1 & H2 & _). split.
  - apply H1. unfold has_separator. apply contains_char. reflexivity.
  - apply H2. unfold has_separator. apply contains_char_false. reflexivity.
Defined.

(** C8: [normalize_symbol] is idempotent, for every Unicode table whose
    uppercase images are themselves upper case and free of separators. *)
Theorem normalize_symbol_idempotent (db : UnicodeData) (s : pystr) :
  upper_closed db →
  normalize_symbol db (normalize_symbol db s) = normalize_symbol db s.
Proof.
  intros Hdb. rewrite (normalize_symbol_unfold db s).
  destruct (contains [slash] s) eqn:E.
  - rewrite normalize_symbol_unfold. by rewrite E.
  - apply contains_char_false in E.
    rewrite normalize_symbol_unfold.
    destruct (contains [slash] (upper db (subst_underscores s))) eqn:E2; [done|].
    apply contains_char_false in E2.
    destruct (decide (underscore ∈ s)) as [Hu|Hu].
    + exfalso. apply E2, upper_slash. by apply subst_underscores_slash.
    + rewrite (subst_underscores_id s) by done.
      rewrite subst_underscores_id; [by apply upper_idempotent|].
      intros H. apply Hu. eapply upper_sep_inv; eauto.
Qed.

Lemma normalize_symbol_idempotent_witness :
  normalize_symbol sample_db (normalize_symbol sample_db (sharp_s_pair)) =
  normalize_symbol sample_db (sharp_s_pair).
Proof.
  apply (normalize_symbol_idempotent sample_db (sharp_s_pair)).
  exact sample_db_closed.
Defined.

(** ** Event logs *)

Lemma count_app (p : event -> bool) (l1 l2 : list event) :
  count p (l1 ++ l2) = (count p l1 + count p l2)%nat.
Proof. unfold count. by rewrite List.filter_app, length_app. Qed.

Lemma count_cons (p : event -> bool) (e : event) (l : list event) :
  count p (e :: l) = ((if p e then 1 else 0) + count p l)%nat.
Proof. unfold count. simpl. by destruct (p e). Qed.





(** ** One attempt *)

Ltac run_M :=
  repeat (progress
    (try unfold mbind in *; try unfold M_bind in *; try unfold mret in *;
     try unfold M_ret in *; try unfold bind in *; try unfold ret in *;
     try unfold raise in *; try unfold emit in *; try unfold invoke in *;
     try unfold getitem in *)).

Ltac run_cases := repeat (first [case_match | progress run_M]).

Section Attempt.
Context {W : Type} `{!Clock W} (exchange : Exchange W) (cfg : Config).
Variables (symbol side : pystr) (amount : float) (order_type : pystr)
  (price : option float).

Lemma dispatch_log w w' l r :
  dispatch exchange symbol side amount order_type price w = (w', l, r) →
  l = [] ∨ ∃ c, l = [ECall c] ∧ is_placement (ECall c) = true.
Proof.
  unfold dispatch. run_cases; intros; simplify_eq; eauto.
Qed.

Lemma follow_up_log o w w' l r :
  follow_up exchange symbol o w = (w', l, r) →
  l = [] ∨ ∃ oid, l = [ECall (FetchOrder oid symbol)].
Proof.
  unfold follow_up. run_cases; intros; simplify_eq; eauto.
Qed.

(** An attempt logs calls only, and the first is the one [load_markets]. *)
Lemma attempt_once_log w w' l r :
  attempt_once exchange symbol side amount order_type price w = (w', l, r) →
  forallb is_call l = true ∧ count is_load l = 1%nat ∧
  head l = Some (ECall LoadMarkets).
Proof.
  unfold attempt_once. unfold mbind at 1 2, M_bind, bind, invoke.
  destruct (load_markets exchange w) as [w1 [[]|e1]]; [|by intros [= <- <- <-]].
  destruct (dispatch _ _ _ _ _ _ w1) as [[w2 l2] [o|e2]] eqn:Ed;
    apply dispatch_log in Ed.
  - destruct (follow_up _ _ o w2) as [[w3 l3] r3] eqn:Ef.
    apply follow_up_log in Ef. intros [= <- <- <-].
    destruct Ed as [->|(c & -> & Hc)], Ef as [->|(oid & ->)];
      try (destruct c; try discriminate); done.
  - intros [= <- <- <-].
    destruct Ed as [->|(c & -> & Hc)];
      try (destruct c; try discriminate); done.
Qed.

(** ** The retry loop, one iteration at a time *)

Lemma retry_loop_ok a rest prev w w1 l1 o :
  attempt_once exchange symbol side amount order_type price w = (w1, l1, Ok o) →
  retry_loop exchange cfg symbol side amount order_type price (a :: rest) prev w
  = (w1, l1, Ok o).
Proof. intros H. cbn [retry_loop]. unfold try_except. by rewrite H. Qed.

Lemma retry_loop_retry a rest prev w w1 w2 l1 e :
  attempt_once exchange symbol side amount order_type price w = (w1, l1, Raised e) →
  (a < MAX_RETRIES cfg)%Z → sleep (RETRY_DELAY cfg) w1 = (w2, Ok tt) →
  retry_loop exchange cfg symbol side amount order_type price (a :: rest) prev w
  = match retry_loop exchange cfg symbol side amount order_type price rest (Some e) w2 with
    | (w3, l3, r) =>
        (w3, l1 ++ EPrintFailed a e :: ESleep (RETRY_DELAY cfg) :: l3, r)
    end.
Proof.
  intros H Ha Hd. cbn [retry_loop]. unfold try_except. rewrite H.
  unfold on_failure, time_sleep.
  destruct (Z.ltb_spec a (MAX_RETRIES cfg)); [|lia].
  run_M. rewrite Hd.
  by destruct (retry_loop _ _ _ _ _ _ _ rest (Some e) w2) as [[w3 l3] r].
Qed.

Lemma retry_loop_raised a rest prev w w1 l1 e :
  attempt_once exchange symbol side amount order_type price w = (w1, l1, Raised e) →
  retry_loop exchange cfg symbol side amount order_type price (a :: rest) prev w
  = match (_ ← on_failure cfg a e;
           retry_loop exchange cfg symbol side amount order_type price rest (Some e))
            w1 with
    | (w2, l2, r) => (w2, l1 ++ l2, r)
    end.
Proof.
  intros H. cbn [retry_loop]. unfold try_except. rewrite H.
  by destruct ((_ ← on_failure cfg a e; retry_loop _ _ _ _ _ _ _ rest (Some e)) w1)
    as [[w2 l2] r].
Qed.




End Attempt.

(** ** The handler around the submitter *)

Lemma webhook_submits {W : Type} `{!Clock W} (db : UnicodeData) (exchange : Exchange W)
    (cfg : Config) payload symbol side amount order_type price w :
  submits db payload symbol side amount order_type price →
  webhook db exchange cfg payload w =
  match place_order_with_retry exchange cfg symbol side amount order_type price w with
  | (w1, l1, Raised e) => (w1, l1, placement_failure e)
  | (w1, l1, Ok o) =>
      (w1,
       l1 ++ [EAddTask log_order o; EAddTask log_order_to_gsheet o;
              EAddTask notify_remote o],
       Response (py "ok") (dict_get o (py "id")) o)
  end.
Proof.
  intros (Hv & Hs & <- & <- & <- & <-). unfold webhook.
  unfold side_of in Hs. rewrite Hs.
  by destruct Hv as [-> | ->].
Qed.

(** ** Order Submitter: exhausting the retry budget *)

Section Retry.
Context {W : Type} `{!Clock W} (exchange : Exchange W) (cfg : Config).
Variables (symbol side : pystr) (amount : float) (order_type : pystr)
  (price : option float).


Lemma place_order_unfold w :
  place_order_with_retry exchange cfg symbol side amount order_type price w =
  match retry_loop exchange cfg symbol side amount order_type price
          (range 1 (MAX_RETRIES cfg + 1)) None w with
  | (w1, l1, r) =>
      (w1, EPrintPlacing side amount symbol order_type price :: l1, r)
  end.
Proof. unfold place_order_with_retry. run_M. by repeat case_match. Qed.


End Retry.





(** ** Order Submitter: success on the third attempt *)




(** ** The configuration at its edges *)

(** With no attempt configured the loop body never runs and
    [raise last_exception] raises [None]. *)
Example no_attempt_run :
  place_order_with_retry steady no_attempt_cfg btc_usdt (py "buy") one
    (py "market") None 0%nat
  = (0%nat,
     [EPrintPlacing (py "buy") one btc_usdt (py "market") None],
     Raised (TypeError (py "exceptions must derive from BaseException"))).
Proof. reflexivity. Qed.

(** A negative delay makes [time.sleep] raise inside the [except] clause:
    the first failure ends the submission. *)
Example negative_delay_run :
  place_order_with_retry scripted negative_delay_cfg btc_usdt (py "buy") one
    (py "market") None third_time_lucky
  = ([Ok ∅; Raised timeout_error; Ok ∅; Ok filled],
     [EPrintPlacing (py "buy") one btc_usdt (py "market") None;
      ECall LoadMarkets; EPrintFailed 1 timeout_error],
     Raised (ValueError (py "sleep length must be non-negative"))).
Proof. reflexivity. Qed.

(** ** Order Submitter: the two validation errors *)

Section Validation.
Context {W : Type} `{!Clock W} (exchange : Exchange W) (cfg : Config).
Variables (symbol side : pystr) (amount : float).



End Validation.



(** What the handler does with a "stop" order when the exchange answers
    its calls. *)
Example unsupported_order_type_run :
  webhook ident_db scripted default_cfg (buy_payload (py "stop") None) always_up
  = ([Ok ∅; Ok ∅; Ok ∅],
     [EPrintPlacing (py "buy") one btc_usdt (py "stop") None;
      ECall LoadMarkets;
      EPrintFailed 1 (ValueError (py "Unsupported order type")); ESleep 2;
      ECall LoadMarkets;
      EPrintFailed 2 (ValueError (py "Unsupported order type")); ESleep 2;
      ECall LoadMarkets;
      EPrintFailed 3 (ValueError (py "Unsupported order type"))],
     placement_failure (ValueError (py "Unsupported order type"))).
Proof. reflexivity. Qed.




(** What the submitter does with a priceless limit order when the exchange
    answers its calls. *)
Example missing_price_run :
  place_order_with_retry scripted default_cfg btc_usdt (py "buy") one
    (py "limit") None always_up
  = ([Ok ∅; Ok ∅; Ok ∅],
     [EPrintPlacing (py "buy") one btc_usdt (py "limit") None;
      ECall LoadMarkets;
      EPrintFailed 1 (ValueError (py "Missing price for limit order")); ESleep 2;
      ECall LoadMarkets;
      EPrintFailed 2 (ValueError (py "Missing price for limit order")); ESleep 2;
      ECall LoadMarkets;
      EPrintFailed 3 (ValueError (py "Missing price for limit order"))],
     Raised (ValueError (py "Missing price for limit order"))).
Proof. reflexivity. Qed.


(** ** The action field *)

Lemma lstrip_spaces (pre s : pystr) :
  Forall (fun c => isspace c = true) pre → lstrip (pre ++ s) = lstrip s.
Proof. induction 1 as [|c pre Hc _ IH]; simpl; [done|]. by rewrite Hc. Qed.

Lemma lstrip_solid (v : pystr) :
  Forall (fun c => isspace c = false) v → lstrip v = v.
Proof. destruct 1 as [|c v Hc _]; simpl; [done|]. by rewrite Hc. Qed.

Lemma strip_padded (v s : pystr) :
  Forall (fun c => isspace c = false) v → padded v s → strip s = v.
Proof.
  intros Hv (pre & post & Hpre & Hpost & ->). unfold strip, rstrip.
  rewrite lstrip_spaces by done.
  destruct v as [|c v].
  - simpl. rewrite <- (app_nil_r post), lstrip_spaces by done. done.
  - replace (lstrip ((c :: v) ++ post)) with ((c :: v) ++ post)
      by (inversion Hv as [|? ? Hc ?]; subst; simpl; by rewrite Hc).
    rewrite rev_app_distr.
    rewrite lstrip_spaces by (apply Forall_rev; assumption).
    rewrite lstrip_solid by (apply Forall_rev; assumption).
    apply rev_involutive.
Qed.

Lemma padded_self (v : pystr) : padded v v.
Proof. exists [], []. split_and!; [constructor..|]. by rewrite app_nil_r. Qed.

Ltac invert_variant :=
  repeat match goal with
         | H : Forall2 _ (_ :: _) _ |- _ => inversion H; clear H; subst
         | H : Forall2 _ [] _ |- _ => inversion H; clear H; subst
         | H : same_letter _ _ |- _ => destruct H; subst
         end.

Lemma case_variant_lower (db : UnicodeData) (target v : pystr) :
  valid_side target → case_variant target v →
  Forall (fun c => isspace c = false) v ∧ lower db v = target.
Proof.
  unfold case_variant. intros [-> | ->] Hv.
  - change (py "buy") with [98; 117; 121] in *. invert_variant;
      (split; [by repeat constructor | reflexivity]).
  - change (py "sell") with [115; 101; 108; 108] in *. invert_variant;
      (split; [by repeat constructor | reflexivity]).
Qed.

(** A padded case variant of a side is read as that side. *)
Lemma padded_variant_side (db : UnicodeData) (target v s : pystr) :
  valid_side target → case_variant target v → padded v s →
  lower db (strip s) = target.
Proof.
  intros Ht Hv Hs. destruct (case_variant_lower db _ _ Ht Hv) as [Hsolid Hlow].
  by rewrite (strip_padded _ _ Hsolid Hs).
Qed.

Lemma in_pair_spec (v : pyval) (a b : pystr) :
  in_pair v a b = true ↔ v = VStr a ∨ v = VStr b.
Proof.
  unfold in_pair, val_eq_str. rewrite orb_true_iff.
  destruct v; try (split; [intros [?|?]; discriminate | intros [?|?]; discriminate]).
  rewrite !str_eqb_eq. split; intros [H|H]; simplify_eq; auto.
Qed.

Lemma lstrip_split (s : pystr) :
  ∃ pre, Forall (fun c => isspace c = true) pre ∧ s = pre ++ lstrip s.
Proof.
  induction s as [|c s (pre & Hpre & IH)]; [by exists []|].
  simpl. destruct (isspace c) eqn:Ec.
  - exists (c :: pre). split; [by constructor|]. simpl. by f_equal.
  - by exists [].
Qed.

(** [strip] only removes whitespace, and only at the two ends. *)
Lemma strip_is_padded (s : pystr) : padded (strip s) s.
Proof.
  destruct (lstrip_split s) as (pre & Hpre & Hs).
  destruct (lstrip_split (rev (lstrip s))) as (post & Hpost & Ht).
  exists pre, (rev post). split_and!; [done|by apply Forall_rev|].
  unfold strip, rstrip. rewrite <- rev_app_distr, <- Ht, rev_involutive. done.
Qed.

Lemma lower_ascii_gen (g : nat → codepoint → pystr) (s : pystr) :
  (∀ i c, is_ascii c = true → g i c = [ascii_tolower c]) →
  all_ascii s → List.concat (imap g s) = List.map ascii_tolower s.
Proof.
  revert g. induction s as [|c s IH]; intros g Hg Hs; [done|].
  inversion Hs as [|? ? Hc Hs']; subst. cbn [imap List.concat List.map].
  rewrite (Hg 0%nat c Hc). cbn [app]. f_equal.
  apply IH; [|done]. intros i d Hd. by apply Hg.
Qed.

(** On ASCII text [lower] is the ASCII case folding, whatever the Unicode
    table. *)
Lemma lower_ascii (db : UnicodeData) (s : pystr) :
  all_ascii s → lower db s = List.map ascii_tolower s.
Proof.
  intros Hs. unfold lower. apply lower_ascii_gen; [|done].
  intros i c Hc. unfold lower_ucs4. by rewrite Hc.
Qed.

Lemma ascii_tolower_inv (t c : codepoint) :
  97 <= t <= 122 → ascii_tolower c = t → same_letter t c.
Proof.
  unfold ascii_tolower, same_letter, ascii_toupper. intros Ht.
  destruct ((65 <=? c) && (c <=? 90)) eqn:E.
  - apply andb_true_iff in E as [?%N.leb_le ?%N.leb_le]. intros <-. right.
    destruct (N.leb_spec 97 (c + 32)); [|lia].
    destruct (N.leb_spec (c + 32) 122); [|lia]. simpl. lia.
  - intros ->. by left.
Qed.

Lemma lowered_is_variant (target v : pystr) :
  Forall (fun t => 97 <= t <= 122) target →
  List.map ascii_tolower v = target → case_variant target v.
Proof.
  unfold case_variant. intros Ht. revert v.
  induction Ht as [|t target Hlow _ IH]; intros [|c v] Hv; try discriminate.
  - constructor.
  - injection Hv as Hc Hv. constructor; [by apply ascii_tolower_inv|by apply IH].
Qed.

Lemma side_letters (target : pystr) :
  valid_side target → Forall (fun t => 97 <= t <= 122) target.
Proof.
  intros [-> | ->];
    [change (py "buy") with [98; 117; 121]
    |change (py "sell") with [115; 101; 108; 108]];
    repeat (constructor; [lia|]); constructor.
Qed.

(** A text that lower-cases to a side is a case variant of it. *)
Lemma ascii_side_variant (db : UnicodeData) (v : pystr) :
  all_ascii v → valid_side (lower db v) → case_variant (lower db v) v.
Proof.
  intros Hv Hside. apply lowered_is_variant; [by apply side_letters|].
  symmetry. by apply lower_ascii.
Qed.

Lemma valid_side_letters (target : pystr) :
  valid_side target → Forall side_letter target.
Proof.
  unfold side_letter. change (py "buysel") with [98; 117; 121; 115; 101; 108].
  intros [-> | ->];
    [change (py "buy") with [98; 117; 121]
    |change (py "sell") with [115; 101; 108; 108]];
    repeat (constructor; [rewrite !elem_of_cons; tauto|]); constructor.
Qed.

Lemma lowered_letters_gen (g : nat → codepoint → pystr) (s : pystr) :
  (∀ i c, is_ascii c = false → g i c ≠ [] ∧ ∀ d, d ∈ g i c → ¬ side_letter d) →
  Forall side_letter (List.concat (imap g s)) → all_ascii s.
Proof.
  revert g. induction s as [|c s IH]; intros g Hg Hs; [constructor|].
  cbn [imap List.concat] in Hs. apply Forall_app in Hs as [Hc Hs].
  constructor.
  - destruct (is_ascii c) eqn:Ec; [done|].
    destruct (Hg 0%nat c Ec) as [Hne Hno].
    destruct (g 0%nat c) as [|d ds]; [done|].
    inversion Hc as [|? ? Hd _]; subst.
    exfalso. apply (Hno d); [apply elem_of_cons; by left|done].
  - apply (IH (g ∘ S)); [|done]. intros i d Hd. by apply Hg.
Qed.

(** Under a lowercase table with that property, only ASCII text lower-cases
    to a side. *)
Lemma lowered_side_ascii (db : UnicodeData) (s : pystr) :
  lower_foreign db → valid_side (lower db s) → all_ascii s.
Proof.
  intros Hdb Hside. apply (lowered_letters_gen (lower_ucs4 db s)).
  - intros i c Hc. by apply Hdb.
  - by apply valid_side_letters.
Qed.

Lemma ident_db_lower_foreign : lower_foreign ident_db.
Proof.
  intros data i c Hc. unfold lower_ucs4. rewrite Hc.
  assert (Hside : ∀ d, is_ascii d = false → ¬ side_letter d).
  { intros d Hd. unfold side_letter.
    change (py "buysel") with [98; 117; 121; 115; 101; 108].
    rewrite !elem_of_cons, elem_of_nil.
    intros [->|[->|[->|[->|[->|[->|[]]]]]]]; discriminate Hd. }
  destruct (c =? 931); (split; [done|]);
    intros d ->%list_elem_of_singleton; by apply Hside.
Qed.

(** ** Order Submitter: the follow-up fetch *)

(** C6: when the order call of an attempt returns an order (one that has an
    id) whose status is ['open'] or ['partial'], the attempt makes exactly
    one [fetch_order] call, by that id, and its outcome is the outcome of
    that call: a fetched order is what the submitter returns, and an
    exception of the fetch is the failure of the whole attempt, which the
    loop hands to its [except] clause as it does any other failure - so
    that, when attempts are left and [time.sleep] returns, it is reported
    and retried after the delay.  For any other status the attempt returns
    the order as it is and fetches nothing. *)
Theorem follow_up_fetch {W : Type} `{!Clock W} (exchange : Exchange W) (cfg : Config)
    (symbol side : pystr) (amount : float) (order_type : pystr)
    (price : option float) (w w1 w2 : W) (l2 : list event) (o : order) :
  load_markets exchange w = (w1, Ok tt) →
  dispatch exchange symbol side amount order_type price w1 = (w2, l2, Ok o) →
  (∀ oid,
     dict_get o (py "status") = VStr (py "open") ∨
     dict_get o (py "status") = VStr (py "partial") →
     o !! py "id" = Some oid →
     ∃ w3 r l,
       fetch_order exchange oid symbol w2 = (w3, r) ∧
       attempt_once exchange symbol side amount order_type price w = (w3, l, r) ∧
       l = ECall LoadMarkets :: l2 ++ [ECall (FetchOrder oid symbol)] ∧
       count is_fetch l = 1%nat ∧
       (∀ fetched a rest prev, r = Ok fetched →
          retry_loop exchange cfg symbol side amount order_type price
            (a :: rest) prev w = (w3, l, Ok fetched)) ∧
       (∀ e a rest prev, r = Raised e →
          retry_loop exchange cfg symbol side amount order_type price
            (a :: rest) prev w =
          match (_ ← on_failure cfg a e;
                 retry_loop exchange cfg symbol side amount order_type price
                   rest (Some e)) w3 with
          | (w4, l4, r4) => (w4, l ++ l4, r4)
          end) ∧
       (∀ e a rest prev w4, r = Raised e →
          (a < MAX_RETRIES cfg)%Z →
          sleep (RETRY_DELAY cfg) w3 = (w4, Ok tt) →
          retry_loop exchange cfg symbol side amount order_type price
            (a :: rest) prev w =
          match retry_loop exchange cfg symbol side amount order_type price
                  rest (Some e) w4 with
          | (w5, l5, r5) =>
              (w5, l ++ EPrintFailed a e :: ESleep (RETRY_DELAY cfg) :: l5, r5)
          end)) ∧
  (dict_get o (py "status") ≠ VStr (py "open") →
   dict_get o (py "status") ≠ VStr (py "partial") →
   attempt_once exchange symbol side amount order_type price w
   = (w2, ECall LoadMarkets :: l2, Ok o) ∧
   count is_fetch (ECall LoadMarkets :: l2) = 0%nat).
Proof.
  intros Hload Hdisp.
  assert (Hl2 : count is_fetch l2 = 0%nat).
  { destruct (dispatch_log _ _ _ _ _ _ _ _ _ _ Hdisp) as [->|(c & -> & Hc)];
      [done|]. by destruct c. }
  split.
  - intros oid Hst Hid. apply in_pair_spec in Hst.
    destruct (fetch_order exchange oid symbol w2) as [w3 r] eqn:Ef.
    assert (Hrun : attempt_once exchange symbol side amount order_type price w
                   = (w3, ECall LoadMarkets :: l2 ++ [ECall (FetchOrder oid symbol)], r)).
    { unfold attempt_once. unfold mbind at 1 2, M_bind, bind, invoke.
      rewrite Hload, Hdisp. unfold follow_up. rewrite Hst. run_M.
      by rewrite Hid, Ef. }
    exists w3, r, (ECall LoadMarkets :: l2 ++ [ECall (FetchOrder oid symbol)]).
    split_and!; [done|done|done| | | |].
    + rewrite count_cons, count_app, Hl2. done.
    + intros fetched a rest prev ->. by apply retry_loop_ok.
    + intros e a rest prev ->. by apply retry_loop_raised.
    + intros e a rest prev w4 -> Ha Hd. by eapply retry_loop_retry.
  - intros Hopen Hpartial.
    assert (Hst : in_pair (dict_get o (py "status")) (py "open") (py "partial") = false).
    { destruct (in_pair _ _ _) eqn:E; [|done].
      apply in_pair_spec in E as [?|?]; done. }
    split; [|by rewrite count_cons, Hl2].
    unfold attempt_once. unfold mbind at 1 2, M_bind, bind, invoke.
    rewrite Hload, Hdisp. unfold follow_up. rewrite Hst. run_M.
    by rewrite app_nil_r.
Qed.

Lemma follow_up_fetch_witness :
  (attempt_once scripted btc_usdt (py "buy") one (py "market") None
     open_then_filled
   = ([], [ECall LoadMarkets; ECall (CreateMarketBuyOrder btc_usdt one);
           ECall (FetchOrder (VStr (py "7")) btc_usdt)], Ok filled) ∧
   retry_loop scripted default_cfg btc_usdt (py "buy") one (py "market") None
     [1; 2; 3]%Z None open_then_filled
   = ([], [ECall LoadMarkets; ECall (CreateMarketBuyOrder btc_usdt one);
           ECall (FetchOrder (VStr (py "7")) btc_usdt)], Ok filled)) ∧
  (attempt_once scripted btc_usdt (py "buy") one (py "market") None
     fetch_times_out
   = ([Ok ∅; Ok filled],
      [ECall LoadMarkets; ECall (CreateMarketBuyOrder btc_usdt one);
       ECall (FetchOrder (VStr (py "7")) btc_usdt)], Raised timeout_error) ∧
   retry_loop scripted default_cfg btc_usdt (py "buy") one (py "market") None
     [1; 2; 3]%Z None fetch_times_out
   = ([],
      [ECall LoadMarkets; ECall (CreateMarketBuyOrder btc_usdt one);
       ECall (FetchOrder (VStr (py "7")) btc_usdt);
       EPrintFailed 1 timeout_error; ESleep 2;
       ECall LoadMarkets; ECall (CreateMarketBuyOrder btc_usdt one)],
      Ok filled)) ∧
  (attempt_once scripted btc_usdt (py "buy") one (py "market") None
     [Ok ∅; Ok filled]
   = ([], [ECall LoadMarkets; ECall (CreateMarketBuyOrder btc_usdt one)],
      Ok filled) ∧
   count is_fetch
     [ECall LoadMarkets; ECall (CreateMarketBuyOrder btc_usdt one)] = 0%nat).
Proof.
  assert (Hopen : dict_get resting (py "status") = VStr (py "open") ∨
                  dict_get resting (py "status") = VStr (py "partial"))
    by (left; reflexivity).
  assert (Hid : resting !! py "id" = Some (VStr (py "7"))) by reflexivity.
  split_and!.
  - destruct (follow_up_fetch scripted default_cfg btc_usdt (py "buy") one
                (py "market") None open_then_filled [Ok resting; Ok filled]
                [Ok filled] [ECall (CreateMarketBuyOrder btc_usdt one)] resting
                eq_refl eq_refl) as [Hfetch _].
    destruct (Hfetch (VStr (py "7")) Hopen Hid)
      as (w3 & r & l & Hf & Hrun & -> & _).
    injection Hf as <- <-. exact Hrun.
  - destruct (follow_up_fetch scripted default_cfg btc_usdt (py "buy") one
                (py "market") None open_then_filled [Ok resting; Ok filled]
                [Ok filled] [ECall (CreateMarketBuyOrder btc_usdt one)] resting
                eq_refl eq_refl) as [Hfetch _].
    destruct (Hfetch (VStr (py "7")) Hopen Hid)
      as (w3 & r & l & Hf & _ & -> & _ & Hok & _).
    injection Hf as <- <-. exact (Hok filled 1%Z [2; 3]%Z None eq_refl).
  - destruct (follow_up_fetch scripted default_cfg btc_usdt (py "buy") one
                (py "market") None fetch_times_out
                [Ok resting; Raised timeout_error; Ok ∅; Ok filled]
                [Raised timeout_error; Ok ∅; Ok filled]
                [ECall (CreateMarketBuyOrder btc_usdt one)] resting
                eq_refl eq_refl) as [Hfetch _].
    destruct (Hfetch (VStr (py "7")) Hopen Hid)
      as (w3 & r & l & Hf & Hrun & -> & _).
    injection Hf as <- <-. exact Hrun.
  - destruct (follow_up_fetch scripted default_cfg btc_usdt (py "buy") one
                (py "market") None fetch_times_out
                [Ok resting; Raised timeout_error; Ok ∅; Ok filled]
                [Raised timeout_error; Ok ∅; Ok filled]
                [ECall (CreateMarketBuyOrder btc_usdt one)] resting
                eq_refl eq_refl) as [Hfetch _].
    destruct (Hfetch (VStr (py "7")) Hopen Hid)
      as (w3 & r & l & Hf & _ & -> & _ & _ & _ & Hretry).
    injection Hf as <- <-.
    rewrite (Hretry timeout_error 1%Z [2; 3]%Z None [Ok ∅; Ok filled] eq_refl);
      [reflexivity|simpl; lia|reflexivity].
  - assert (Hno : dict_get filled (py "status") ≠ VStr (py "open"))
      by (vm_compute; discriminate).
    assert (Hnp : dict_get filled (py "status") ≠ VStr (py "partial"))
      by (vm_compute; discriminate).
    destruct (follow_up_fetch scripted default_cfg btc_usdt (py "buy") one
                (py "market") None [Ok ∅; Ok filled] [Ok filled] []
                [ECall (CreateMarketBuyOrder btc_usdt one)] filled
                eq_refl eq_refl) as [_ Hplain].
    exact (proj1 (Hplain Hno Hnp)).
  - reflexivity.
Defined.

(** The run behind the witness: one placement, one fetch, the fetched order. *)
Example open_order_run :
  place_order_with_retry scripted default_cfg btc_usdt (py "buy") one
    (py "market") None open_then_filled
  = ([],
     [EPrintPlacing (py "buy") one btc_usdt (py "market") None;
      ECall LoadMarkets; ECall (CreateMarketBuyOrder btc_usdt one);
      ECall (FetchOrder (VStr (py "7")) btc_usdt)],
     Ok filled).
Proof. reflexivity. Qed.

(** [order['id']] on an open order without an id raises before any fetch. *)
Example open_order_without_id_run :
  attempt_once scripted btc_usdt (py "buy") one (py "market") None
    [Ok ∅; Ok anonymous; Ok filled]
  = ([Ok filled],
     [ECall LoadMarkets; ECall (CreateMarketBuyOrder btc_usdt one)],
     Raised (KeyError (py "id"))).
Proof. reflexivity. Qed.

(** ** Webhook Handler: the action field *)

Lemma valid_side_eqb (side : pystr) :
  str_eqb side (py "buy") || str_eqb side (py "sell") = true ↔ valid_side side.
Proof. unfold valid_side. by rewrite orb_true_iff, !str_eqb_eq. Qed.

(** C7: the action is read without regard to case: for every payload
    whose action is a case variant of ['buy'] or ['sell'], the handler calls
    the submitter with that side and does not answer 400.  An action that
    reads as neither side is answered with a 400 before anything else
    happens: the exchange is left as it was and nothing is logged, so the
    submitter is not invoked and nothing is retried; with a lowercase table
    in which no non-ASCII code point lower-cases to nothing or to a letter
    of the two sides, that is the case of every action that is not a case
    variant of a side between two runs of whitespace.  The order call is
    chosen by (order_type, side): market-buy, market-sell, limit-buy,
    limit-sell. *)
Theorem invalid_action_rejected {W : Type} `{!Clock W} (db : UnicodeData)
    (exchange : Exchange W) (cfg : Config) :
  (∀ payload target w,
     valid_side target → case_variant target (TVPayload.action payload) →
     webhook db exchange cfg payload w =
       match place_order_with_retry exchange cfg
               (normalize_symbol db (TVPayload.symbol payload)) target
               (TVPayload.quantity payload) (TVPayload.order_type payload)
               (TVPayload.price payload) w with
       | (w1, l1, Raised e) => (w1, l1, placement_failure e)
       | (w1, l1, Ok o) =>
           (w1,
            l1 ++ [EAddTask log_order o; EAddTask log_order_to_gsheet o;
                   EAddTask notify_remote o],
            Response (py "ok") (dict_get o (py "id")) o)
       end ∧
     http_status (outcome_of (webhook db exchange cfg payload w)) ≠ 400%Z) ∧
  (∀ payload w,
     ¬ valid_side (side_of db payload) →
     webhook db exchange cfg payload w
     = (w, [], HTTPException 400 (Detail (py "action must be BUY or SELL")))) ∧
  (lower_foreign db →
   ∀ payload w,
     ¬ (∃ target v, valid_side target ∧ case_variant target v ∧
                    padded v (TVPayload.action payload)) →
     webhook db exchange cfg payload w
     = (w, [], HTTPException 400 (Detail (py "action must be BUY or SELL")))) ∧
  (∀ symbol amount price,
     dispatch exchange symbol (py "buy") amount (py "market") price
     = invoke (CreateMarketBuyOrder symbol amount)
         (create_market_buy_order exchange symbol amount)) ∧
  (∀ symbol amount price,
     dispatch exchange symbol (py "sell") amount (py "market") price
     = invoke (CreateMarketSellOrder symbol amount)
         (create_market_sell_order exchange symbol amount)) ∧
  (∀ symbol amount p,
     dispatch exchange symbol (py "buy") amount (py "limit") (Some p)
     = invoke (CreateLimitBuyOrder symbol amount p)
         (create_limit_buy_order exchange symbol amount p)) ∧
  (∀ symbol amount p,
     dispatch exchange symbol (py "sell") amount (py "limit") (Some p)
     = invoke (CreateLimitSellOrder symbol amount p)
         (create_limit_sell_order exchange symbol amount p)).
Proof.
  assert (Hreject : ∀ payload w,
            ¬ valid_side (side_of db payload) →
            webhook db exchange cfg payload w
            = (w, [], HTTPException 400 (Detail (py "action must be BUY or SELL")))).
  { intros payload w Hside. unfold webhook. fold (side_of db payload).
    destruct (str_eqb _ _ || str_eqb _ _) eqn:E; [|done].
    by apply valid_side_eqb in E. }
  split_and!; try reflexivity.
  - intros payload target w Ht Hv.
    assert (Hsub : submits db payload
                     (normalize_symbol db (TVPayload.symbol payload)) target
                     (TVPayload.quantity payload) (TVPayload.order_type payload)
                     (TVPayload.price payload)).
    { unfold submits, side_of. split_and!; try done.
      eapply padded_variant_side; eauto using padded_self. }
    rewrite (webhook_submits _ _ _ _ _ _ _ _ _ _ Hsub). split; [done|].
    by destruct (place_order_with_retry _ _ _ _ _ _ _ _) as [[w1 l1] [o|e]].
  - exact Hreject.
  - intros Hdb payload w Hno. apply Hreject. intros Hside. apply Hno.
    exists (side_of db payload), (strip (TVPayload.action payload)).
    split_and!; [done| |apply strip_is_padded].
    apply ascii_side_variant; [|done]. by apply (lowered_side_ascii db).
Qed.

Lemma invalid_action_rejected_witness :
  (webhook ident_db scripted default_cfg (buy_payload (py "market") None)
     open_then_filled
   = ([],
      [EPrintPlacing (py "buy") one btc_usdt (py "market") None;
       ECall LoadMarkets; ECall (CreateMarketBuyOrder btc_usdt one);
       ECall (FetchOrder (VStr (py "7")) btc_usdt);
       EAddTask log_order filled; EAddTask log_order_to_gsheet filled;
       EAddTask notify_remote filled],
      Response (py "ok") (VStr (py "7")) filled) ∧
   http_status (outcome_of (webhook ident_db scripted default_cfg
                              (buy_payload (py "market") None)
                              open_then_filled)) ≠ 400%Z) ∧
  (webhook ident_db scripted default_cfg mixed_case_sell_payload [Ok ∅; Ok filled]
   = ([],
      [EPrintPlacing (py "sell") one btc_usdt (py "market") None;
       ECall LoadMarkets; ECall (CreateMarketSellOrder btc_usdt one);
       EAddTask log_order filled; EAddTask log_order_to_gsheet filled;
       EAddTask notify_remote filled],
      Response (py "ok") (VStr (py "7")) filled) ∧
   http_status (outcome_of (webhook ident_db scripted default_cfg
                              mixed_case_sell_payload [Ok ∅; Ok filled])) ≠ 400%Z) ∧
  webhook ident_db scripted default_cfg hold_payload always_up
  = (always_up, [], HTTPException 400 (Detail (py "action must be BUY or SELL"))) ∧
  webhook ident_db scripted default_cfg accented_payload always_up
  = (always_up, [], HTTPException 400 (Detail (py "action must be BUY or SELL"))).
Proof.
  destruct (invalid_action_rejected ident_db scripted default_cfg)
    as (Hcase & Hreject & Hother & _).
  split; [|split; [|split]].
  - assert (Hv : case_variant (py "buy")
                   (TVPayload.action (buy_payload (py "market") None))).
    { unfold case_variant. repeat (constructor; [right; reflexivity|]).
      constructor. }
    exact (Hcase (buy_payload (py "market") None) (py "buy") open_then_filled
             (or_introl eq_refl) Hv).
  - assert (Hv : case_variant (py "sell")
                   (TVPayload.action mixed_case_sell_payload)).
    { unfold case_variant.
      repeat (constructor; [(left; reflexivity) || (right; reflexivity)|]).
      constructor. }
    exact (Hcase mixed_case_sell_payload (py "sell") [Ok ∅; Ok filled]
             (or_intror eq_refl) Hv).
  - apply Hreject. intros [H|H]; discriminate H.
  - apply (Hother ident_db_lower_foreign).
    intros (target & v & Ht & Hv & Hp).
    pose proof (padded_variant_side ident_db _ _ _ Ht Hv Hp) as E.
    destruct Ht as [-> | ->]; discriminate E.
Defined.

(** C9: the action is stripped of surrounding whitespace before it is
    checked, so a padded case variant of a side (such as [" BUY "]) is not
    answered with a 400: the submitter is invoked with that side. *)
Theorem padded_action_accepted {W : Type} `{!Clock W} (db : UnicodeData)
    (exchange : Exchange W) (cfg : Config) (payload : TVPayload.t)
    (target v : pystr) (w : W) :
  valid_side target → case_variant target v →
  padded v (TVPayload.action payload) →
  side_of db payload = target ∧
  webhook db exchange cfg payload w =
    match place_order_with_retry exchange cfg
            (normalize_symbol db (TVPayload.symbol payload)) target
            (TVPayload.quantity payload) (TVPayload.order_type payload)
            (TVPayload.price payload) w with
    | (w1, l1, Raised e) => (w1, l1, placement_failure e)
    | (w1, l1, Ok o) =>
        (w1,
         l1 ++ [EAddTask log_order o; EAddTask log_order_to_gsheet o;
                EAddTask notify_remote o],
         Response (py "ok") (dict_get o (py "id")) o)
    end ∧
  http_status (snd (webhook db exchange cfg payload w)) ≠ 400%Z.
Proof.
  intros Ht Hv Hp.
  assert (Hside : side_of db payload = target)
    by (unfold side_of; by eapply padded_variant_side).
  assert (Hsub : submits db payload
                   (normalize_symbol db (TVPayload.symbol payload)) target
                   (TVPayload.quantity payload) (TVPayload.order_type payload)
                   (TVPayload.price payload))
    by (by unfold submits).
  split; [done|]. rewrite (webhook_submits _ _ _ _ _ _ _ _ _ _ Hsub).
  split; [done|].
  by destruct (place_order_with_retry _ _ _ _ _ _ _ _) as [[w1 l1] [o|e]].
Qed.

Lemma padded_action_accepted_witness :
  side_of ident_db shouting_payload = py "buy" ∧
  webhook ident_db scripted default_cfg shouting_payload open_then_filled =
    match place_order_with_retry scripted default_cfg
            (normalize_symbol ident_db (TVPayload.symbol shouting_payload))
            (py "buy")
            (TVPayload.quantity shouting_payload)
            (TVPayload.order_type shouting_payload)
            (TVPayload.price shouting_payload) open_then_filled with
    | (w1, l1, Raised e) => (w1, l1, placement_failure e)
    | (w1, l1, Ok o) =>
        (w1,
         l1 ++ [EAddTask log_order o; EAddTask log_order_to_gsheet o;
                EAddTask notify_remote o],
         Response (py "ok") (dict_get o (py "id")) o)
    end ∧
  http_status (snd (webhook ident_db scripted default_cfg shouting_payload
                      open_then_filled)) ≠ 400%Z.
Proof.
  apply (padded_action_accepted ident_db scripted default_cfg shouting_payload
           (py "buy") (py "BUY") open_then_filled).
  - by left.
  - unfold case_variant. repeat (constructor; [right; reflexivity|]). constructor.
  - exists (py " "), (py " "). split_and!.
    + by repeat constructor.
    + by repeat constructor.
    + reflexivity.
Defined.

(** The run behind the witness: [" BUY "] places a market buy. *)
Example shouting_payload_run :
  webhook ident_db scripted default_cfg shouting_payload open_then_filled
  = ([],
     [EPrintPlacing (py "buy") one btc_usdt (py "market") None;
      ECall LoadMarkets; ECall (CreateMarketBuyOrder btc_usdt one);
      ECall (FetchOrder (VStr (py "7")) btc_usdt);
      EAddTask log_order filled; EAddTask log_order_to_gsheet filled;
      EAddTask notify_remote filled],
     Response (py "ok") (VStr (py "7")) filled).
Proof. reflexivity. Qed.

(** ** Order Submitter: the side argument *)

(** C10: the submitter does not validate [side]: with any side other than
    the exact string ['buy'], a market order makes the market-sell call and
    a limit order with a price makes the limit-sell call, and that is the one
    order call of an attempt whose market refresh succeeded. *)
Theorem any_other_side_sells {W : Type} (exchange : Exchange W)
    (symbol side : pystr) (amount : float) :
  side ≠ py "buy" →
  (∀ price,
     dispatch exchange symbol side amount (py "market") price
     = invoke (CreateMarketSellOrder symbol amount)
         (create_market_sell_order exchange symbol amount)) ∧
  (∀ p,
     dispatch exchange symbol side amount (py "limit") (Some p)
     = invoke (CreateLimitSellOrder symbol amount p)
         (create_limit_sell_order exchange symbol amount p)) ∧
  (∀ price w w1, load_markets exchange w = (w1, Ok tt) →
     ∃ w' l r,
       attempt_once exchange symbol side amount (py "market") price w = (w', l, r) ∧
       List.filter is_placement l = [ECall (CreateMarketSellOrder symbol amount)]) ∧
  (∀ p w w1, load_markets exchange w = (w1, Ok tt) →
     ∃ w' l r,
       attempt_once exchange symbol side amount (py "limit") (Some p) w = (w', l, r) ∧
       List.filter is_placement l = [ECall (CreateLimitSellOrder symbol amount p)]).
Proof.
  intros Hside.
  assert (Hm : ∀ price,
     dispatch exchange symbol side amount (py "market") price
     = invoke (CreateMarketSellOrder symbol amount)
         (create_market_sell_order exchange symbol amount)).
  { intros price. unfold dispatch. by rewrite (str_eqb_neq _ _ Hside). }
  assert (Hl : ∀ p,
     dispatch exchange symbol side amount (py "limit") (Some p)
     = invoke (CreateLimitSellOrder symbol amount p)
         (create_limit_sell_order exchange symbol amount p)).
  { intros p. unfold dispatch. by rewrite (str_eqb_neq _ _ Hside). }
  split_and!; [done|done| |].
  - intros price w w1 Hload.
    destruct (attempt_once exchange symbol side amount (py "market") price w)
      as [[w' l] r] eqn:E.
    exists w', l, r. split; [done|]. revert E.
    unfold attempt_once. unfold mbind at 1 2, M_bind, bind.
    unfold invoke at 1. rewrite Hload, Hm. unfold invoke.
    destruct (create_market_sell_order exchange symbol amount w1) as [w2 [o|e]].
    + destruct (follow_up exchange symbol o w2) as [[w3 l3] r3] eqn:Ef.
      apply follow_up_log in Ef. intros [= <- <- <-].
      by destruct Ef as [->|(oid & ->)].
    + by intros [= <- <- <-].
  - intros p w w1 Hload.
    destruct (attempt_once exchange symbol side amount (py "limit") (Some p) w)
      as [[w' l] r] eqn:E.
    exists w', l, r. split; [done|]. revert E.
    unfold attempt_once. unfold mbind at 1 2, M_bind, bind.
    unfold invoke at 1. rewrite Hload, Hl. unfold invoke.
    destruct (create_limit_sell_order exchange symbol amount p w1) as [w2 [o|e]].
    + destruct (follow_up exchange symbol o w2) as [[w3 l3] r3] eqn:Ef.
      apply follow_up_log in Ef. intros [= <- <- <-].
      by destruct Ef as [->|(oid & ->)].
    + by intros [= <- <- <-].
Qed.

Lemma any_other_side_sells_witness :
  (∀ price,
     dispatch scripted btc_usdt (py "hold") one (py "market") price
     = invoke (CreateMarketSellOrder btc_usdt one)
         (create_market_sell_order scripted btc_usdt one)) ∧
  (∀ p,
     dispatch scripted btc_usdt (py "hold") one (py "limit") (Some p)
     = invoke (CreateLimitSellOrder btc_usdt one p)
         (create_limit_sell_order scripted btc_usdt one p)) ∧
  (∀ price w w1, load_markets scripted w = (w1, Ok tt) →
     ∃ w' l r,
       attempt_once scripted btc_usdt (py "hold") one (py "market") price w
       = (w', l, r) ∧
       List.filter is_placement l = [ECall (CreateMarketSellOrder btc_usdt one)]) ∧
  (∀ p w w1, load_markets scripted w = (w1, Ok tt) →
     ∃ w' l r,
       attempt_once scripted btc_usdt (py "hold") one (py "limit") (Some p) w
       = (w', l, r) ∧
       List.filter is_placement l = [ECall (CreateLimitSellOrder btc_usdt one p)]).
Proof.
  apply (any_other_side_sells scripted btc_usdt (py "hold") one).
  discriminate.
Defined.

(** The run behind the witness: the submitter called directly with the
    side ["hold"] places a market sell. *)
Example hold_side_run :
  place_order_with_retry scripted default_cfg btc_usdt (py "hold") one
    (py "market") None [Ok ∅; Ok filled]
  = ([],
     [EPrintPlacing (py "hold") one btc_usdt (py "market") None;
      ECall LoadMarkets; ECall (CreateMarketSellOrder btc_usdt one)],
     Ok filled).
Proof. reflexivity. Qed.

(** * Further properties of the code *)

(** ** The retry loop under any exchange behaviour *)

Lemma count_nil (p : event -> bool) : count p [] = 0%nat.
Proof. done. Qed.

Ltac count_norm :=
  rewrite ?count_app, ?count_cons, ?count_nil;
  cbn [is_load is_placement is_fetch is_sleep is_failed is_task is_call length].

Section Loop.
Context {W : Type} `{!Clock W} (exchange : Exchange W) (cfg : Config).
Variables (symbol side : pystr) (amount : float) (order_type : pystr)
  (price : option float).

Lemma dispatch_ok_log w w' l o :
  dispatch exchange symbol side amount order_type price w = (w', l, Ok o) →
  ∃ c, l = [ECall c] ∧ is_placement (ECall c) = true.
Proof.
  unfold dispatch. run_cases; intros; simplify_eq; eauto.
Qed.

(** The log of one attempt: the refresh, at most one order call, and a
    fetch only after an order call. *)
Lemma attempt_once_shape w w' l r :
  attempt_once exchange symbol side amount order_type price w = (w', l, r) →
  l = [ECall LoadMarkets] ∨
  (∃ c, is_placement (ECall c) = true ∧
        (l = [ECall LoadMarkets; ECall c] ∨
         ∃ oid, l = [ECall LoadMarkets; ECall c; ECall (FetchOrder oid symbol)])).
Proof.
  unfold attempt_once. unfold mbind at 1 2, M_bind, bind, invoke.
  destruct (load_markets exchange w) as [w1 [[]|e1]];
    [|intros [= <- <- <-]; by left].
  destruct (dispatch _ _ _ _ _ _ w1) as [[w2 l2] [o|e2]] eqn:Ed.
  - apply dispatch_ok_log in Ed as (c & -> & Hc).
    destruct (follow_up _ _ o w2) as [[w3 l3] r3] eqn:Ef.
    apply follow_up_log in Ef. intros [= <- <- <-]. right. exists c.
    split; [done|]. destruct Ef as [->|(oid & ->)]; [by left|right; by exists oid].
  - apply dispatch_log in Ed. intros [= <- <- <-].
    destruct Ed as [->|(c & -> & Hc)]; [by left|].
    right. exists c. split; [done|by left].
Qed.

Lemma attempt_once_counts w w' l r :
  attempt_once exchange symbol side amount order_type price w = (w', l, r) →
  count is_load l = 1%nat ∧ (count is_placement l <= 1)%nat ∧
  (count is_fetch l <= count is_placement l)%nat ∧
  count is_sleep l = 0%nat ∧ count is_failed l = 0%nat.
Proof.
  intros H. apply attempt_once_shape in H.
  destruct H as [->|(c & Hc & [->|(oid & ->)])];
    [| |]; try (destruct c; try discriminate); unfold count; simpl; lia.
Qed.

(** What the [except] clause does: it reports, and then sleeps, gives up
    sleeping, or is stopped by [time.sleep]. *)
Lemma on_failure_run (a : Z) (e : exn) (w : W) :
  ((a < MAX_RETRIES cfg)%Z ∧
   ∃ w1 es, sleep (RETRY_DELAY cfg) w = (w1, Raised es) ∧
            on_failure cfg a e w = (w1, [EPrintFailed a e], Raised es)) ∨
  ((a < MAX_RETRIES cfg)%Z ∧
   ∃ w1, sleep (RETRY_DELAY cfg) w = (w1, Ok tt) ∧
         on_failure cfg a e w
         = (w1, [EPrintFailed a e; ESleep (RETRY_DELAY cfg)], Ok tt)) ∨
  ((MAX_RETRIES cfg <= a)%Z ∧
   on_failure cfg a e w = (w, [EPrintFailed a e], Ok tt)).
Proof.
  unfold on_failure, time_sleep.
  destruct (Z.ltb_spec a (MAX_RETRIES cfg)); [|right; right; by split].
  run_M. destruct (sleep (RETRY_DELAY cfg) w) as [w1 [[]|es]];
    [right; left|left]; (split; [done|]); eauto.
Qed.

(** One iteration of the loop, whatever the attempt does. *)
Lemma retry_loop_step a rest prev w :
  retry_loop exchange cfg symbol side amount order_type price (a :: rest) prev w =
  match attempt_once exchange symbol side amount order_type price w with
  | (w1, l1, Ok o) => (w1, l1, Ok o)
  | (w1, l1, Raised e) =>
      match on_failure cfg a e w1 with
      | (w2, l2, Ok _) =>
          match retry_loop exchange cfg symbol side amount order_type price
                  rest (Some e) w2 with
          | (w3, l3, r) => (w3, l1 ++ l2 ++ l3, r)
          end
      | (w2, l2, Raised e') => (w2, l1 ++ l2, Raised e')
      end
  end.
Proof.
  cbn [retry_loop]. unfold try_except.
  destruct (attempt_once _ _ _ _ _ _ w) as [[w1 l1] [o|e]]; [done|].
  unfold mbind, M_bind, bind.
  destruct (on_failure cfg a e w1) as [[w2 l2] [[]|e']]; [|done].
  by destruct (retry_loop _ _ _ _ _ _ _ rest (Some e) w2) as [[w3 l3] r].
Qed.

Lemma retry_loop_counts attempts :
  ∀ prev w w' l r,
  retry_loop exchange cfg symbol side amount order_type price attempts prev w
  = (w', l, r) →
  (count is_load l <= length attempts)%nat ∧
  (count is_placement l <= count is_load l)%nat ∧
  (count is_fetch l <= count is_placement l)%nat ∧
  (count is_sleep l <= count is_failed l)%nat ∧
  match r with
  | Ok _ => count is_load l = S (count is_failed l)
  | Raised _ => count is_failed l = count is_load l
  end.
Proof.
  induction attempts as [|a rest IH]; intros prev w w' l r.
  - cbn [retry_loop]. unfold raise_last, raise.
    destruct prev; intros [= <- <- <-]; by vm_compute.
  - rewrite retry_loop_step.
    destruct (attempt_once _ _ _ _ _ _ w) as [[w1 l1] [o|e]] eqn:Ea;
      apply attempt_once_counts in Ea as (A1 & A2 & A3 & A4 & A5).
    + intros [= <- <- <-]. cbn [length]. rewrite A1, A5. split_and!; lia.
    + destruct (on_failure_run a e w1)
        as [(_ & w2 & es & _ & ->)|[(_ & w2 & _ & ->)|(_ & ->)]].
      * intros [= <- <- <-]. count_norm. rewrite A1, A4, A5.
        split_and!; lia.
      * destruct (retry_loop _ _ _ _ _ _ _ rest (Some e) w2)
          as [[w3 l3] r3] eqn:Er.
        apply IH in Er as (B1 & B2 & B3 & B4 & B5). intros [= <- <- <-].
        count_norm. rewrite A1, A4, A5. destruct r3; split_and!; lia.
      * destruct (retry_loop _ _ _ _ _ _ _ rest (Some e) w1)
          as [[w3 l3] r3] eqn:Er.
        apply IH in Er as (B1 & B2 & B3 & B4 & B5). intros [= <- <- <-].
        count_norm. rewrite A1, A4, A5. destruct r3; split_and!; lia.
Qed.

(** Within the attempt numbers the submitter uses, a failure that is
    followed by another attempt is followed by a sleep. *)
Lemma retry_loop_success_sleeps n :
  ∀ a prev w w' l o,
  (a + Z.of_nat n <= MAX_RETRIES cfg + 1)%Z →
  retry_loop exchange cfg symbol side amount order_type price
    (seqZ a (Z.of_nat n)) prev w = (w', l, Ok o) →
  count is_sleep l = count is_failed l.
Proof.
  induction n as [|n IH]; intros a prev w w' l o Ha.
  - change (seqZ a (Z.of_nat 0)) with (@nil Z). cbn [retry_loop].
    unfold raise_last, raise. by destruct prev.
  - rewrite seqZ_cons by lia.
    replace (Z.pred (Z.of_nat (S n))) with (Z.of_nat n) by lia.
    rewrite retry_loop_step.
    destruct (attempt_once _ _ _ _ _ _ w) as [[w1 l1] [o1|e]] eqn:Ea;
      apply attempt_once_counts in Ea as (A1 & A2 & A3 & A4 & A5).
    + intros [= <- <- <-]. by rewrite A4, A5.
    + destruct (on_failure_run a e w1)
        as [(_ & w2 & es & _ & ->)|[(_ & w2 & _ & ->)|(Hmax & ->)]]; [done| |].
      * destruct (retry_loop _ _ _ _ _ _ _ _ (Some e) w2)
          as [[w3 l3] r3] eqn:Er.
        intros [= <- <- ->]. apply IH in Er; [|lia].
        count_norm. rewrite A4, A5. lia.
      * destruct n as [|n]; [|lia].
        change (seqZ (Z.succ a) (Z.of_nat 0)) with (@nil Z). cbn [retry_loop].
        unfold raise_last, raise. done.
Qed.

(** A property of every event of every attempt, of the failure reports and
    of a sleep of the configured length holds of the whole log of the loop. *)
Lemma retry_loop_forall (P : event → Prop) :
  (∀ w w' l r,
     attempt_once exchange symbol side amount order_type price w = (w', l, r) →
     Forall P l) →
  (∀ a e, P (EPrintFailed a e)) → P (ESleep (RETRY_DELAY cfg)) →
  ∀ attempts prev w w' l r,
  retry_loop exchange cfg symbol side amount order_type price attempts prev w
  = (w', l, r) →
  Forall P l.
Proof.
  intros Hatt Hfail Hsleep. induction attempts as [|a rest IH];
    intros prev w w' l r.
  - cbn [retry_loop]. unfold raise_last, raise.
    destruct prev; intros [= <- <- <-]; constructor.
  - rewrite retry_loop_step.
    destruct (attempt_once _ _ _ _ _ _ w) as [[w1 l1] [o|e]] eqn:Ea;
      apply Hatt in Ea.
    + by intros [= <- <- <-].
    + assert (Hl2 : ∀ w2 l2 r2, on_failure cfg a e w1 = (w2, l2, r2) →
                                Forall P l2).
      { intros w2 l2 r2.
        destruct (on_failure_run a e w1)
          as [(_ & w4 & es & _ & ->)|[(_ & w4 & _ & ->)|(_ & ->)]];
          intros [= <- <- <-]; auto. }
      destruct (on_failure cfg a e w1) as [[w2 l2] [[]|e']] eqn:Eo;
        pose proof (Hl2 _ _ _ eq_refl) as H2.
      * destruct (retry_loop _ _ _ _ _ _ _ rest (Some e) w2)
          as [[w3 l3] r3] eqn:Er.
        apply IH in Er. intros [= <- <- <-].
        rewrite !Forall_app. done.
      * intros [= <- <- <-]. rewrite Forall_app. done.
Qed.

Lemma range_seqZ :
  range 1 (MAX_RETRIES cfg + 1) = seqZ 1 (Z.of_nat (Z.to_nat (MAX_RETRIES cfg))).
Proof.
  unfold range, seqZ. rewrite Nat2Z.id. do 2 f_equal. lia.
Qed.

Lemma place_order_forall (P : event → Prop) w :
  (∀ w w' l r,
     attempt_once exchange symbol side amount order_type price w = (w', l, r) →
     Forall P l) →
  (∀ a e, P (EPrintFailed a e)) → P (ESleep (RETRY_DELAY cfg)) →
  P (EPrintPlacing side amount symbol order_type price) →
  Forall P
    (log_of (place_order_with_retry exchange cfg symbol side amount order_type
               price w)).
Proof.
  intros Hatt Hfail Hsleep Hplacing. rewrite place_order_unfold.
  destruct (retry_loop _ _ _ _ _ _ _ _ None w) as [[w1 l1] r] eqn:E.
  apply (retry_loop_forall P Hatt Hfail Hsleep) in E.
  unfold log_of. simpl. by constructor.
Qed.
End Loop.

Section Calls.
Context {W : Type} `{!Clock W} (exchange : Exchange W) (cfg : Config).
Variables (symbol side : pystr) (amount : float) (order_type : pystr)
  (price : option float).

Lemma attempt_once_forall (P : event → Prop) :
  P (ECall LoadMarkets) → (∀ oid, P (ECall (FetchOrder oid symbol))) →
  (∀ w w' l r,
     dispatch exchange symbol side amount order_type price w = (w', l, r) →
     Forall P l) →
  ∀ w w' l r,
  attempt_once exchange symbol side amount order_type price w = (w', l, r) →
  Forall P l.
Proof.
  intros Hload Hfetch Hdisp w w' l r.
  unfold attempt_once. unfold mbind at 1 2, M_bind, bind, invoke.
  destruct (load_markets exchange w) as [w1 [[]|e1]];
    [|intros [= <- <- <-]; by repeat constructor].
  destruct (dispatch _ _ _ _ _ _ w1) as [[w2 l2] [o|e2]] eqn:Ed;
    apply Hdisp in Ed.
  - destruct (follow_up _ _ o w2) as [[w3 l3] r3] eqn:Ef.
    apply follow_up_log in Ef. intros [= <- <- <-].
    constructor; [done|]. apply Forall_app. split; [done|].
    destruct Ef as [->|(oid & ->)]; by repeat constructor.
  - intros [= <- <- <-]. by constructor.
Qed.

(** The arguments select one order call, the same whatever the state of
    the exchange. *)
Lemma dispatch_call :
  ∃ c0, call_symbol c0 = Some symbol ∧ call_amount c0 = Some amount ∧
        (is_buy_call (ECall c0) = true → side = py "buy") ∧
        (is_sell_call (ECall c0) = true → side ≠ py "buy") ∧
        ∀ w w' l r,
          dispatch exchange symbol side amount order_type price w = (w', l, r) →
          l = [] ∨ l = [ECall c0].
Proof.
  unfold dispatch.
  destruct (str_eqb side (py "buy")) eqn:Es;
    [apply str_eqb_eq in Es|
     assert (side ≠ py "buy") by (intros ->; by rewrite (proj2 (str_eqb_eq _ _)) in Es)].
  - destruct (str_eqb order_type (py "market")).
    { exists (CreateMarketBuyOrder symbol amount). split_and!; try done.
      intros w w' l r. unfold invoke. case_match. intros [= <- <- <-]. by right. }
    destruct (str_eqb order_type (py "limit")), price as [p|];
      try (exists (CreateMarketBuyOrder symbol amount); split_and!; try done;
           intros w w' l r; intros [= <- <- <-]; by left).
    exists (CreateLimitBuyOrder symbol amount p). split_and!; try done.
    intros w w' l r. unfold invoke. case_match. intros [= <- <- <-]. by right.
  - destruct (str_eqb order_type (py "market")).
    { exists (CreateMarketSellOrder symbol amount). split_and!; try done.
      intros w w' l r. unfold invoke. case_match. intros [= <- <- <-]. by right. }
    destruct (str_eqb order_type (py "limit")), price as [p|];
      try (exists (CreateMarketSellOrder symbol amount); split_and!; try done;
           intros w w' l r; intros [= <- <- <-]; by left).
    exists (CreateLimitSellOrder symbol amount p). split_and!; try done.
    intros w w' l r. unfold invoke. case_match. intros [= <- <- <-]. by right.
Qed.

(** Every order call of a submission is that one call, and every fetch is
    for the submitted symbol. *)
Lemma place_order_calls w :
  ∃ c0, call_symbol c0 = Some symbol ∧ call_amount c0 = Some amount ∧
        (is_buy_call (ECall c0) = true → side = py "buy") ∧
        (is_sell_call (ECall c0) = true → side ≠ py "buy") ∧
        Forall (fun e => (is_placement e = true → e = ECall c0) ∧
                         (is_fetch e = true →
                          ∃ oid, e = ECall (FetchOrder oid symbol)) ∧
                         is_task e = false)
          (log_of (place_order_with_retry exchange cfg symbol side amount
                     order_type price w)).
Proof.
  destruct dispatch_call as (c0 & Hs & Ha & Hb & Hse & Hd).
  exists c0. split_and!; try done.
  apply place_order_forall; try done.
  apply attempt_once_forall.
  - done.
  - intros oid. split_and!; [done| |done]. intros _. by exists oid.
  - intros w0 w' l r Hrun. destruct (Hd _ _ _ _ Hrun) as [->| ->];
      [constructor|].
    constructor; [|constructor]. split_and!; [done| |done].
    destruct c0; done.
Qed.
End Calls.

(** X1: whatever the exchange does and however the service is configured,
    one submission makes at most [MAX_RETRIES] market refreshes (none when
    [MAX_RETRIES] is not positive), at most one order call per refresh and at
    most one fetch per order call; it sleeps at most once per reported
    failure and reports at most one failure per refresh. *)
Theorem submission_call_bounds {W : Type} `{!Clock W} (exchange : Exchange W)
    (cfg : Config) (symbol side : pystr) (amount : float)
    (order_type : pystr) (price : option float) (w : W) :
  let l := log_of (place_order_with_retry exchange cfg symbol side amount
                     order_type price w) in
  (count is_load l <= Z.to_nat (MAX_RETRIES cfg))%nat ∧
  (count is_placement l <= count is_load l)%nat ∧
  (count is_fetch l <= count is_placement l)%nat ∧
  (count is_sleep l <= count is_failed l)%nat ∧
  (count is_failed l <= count is_load l)%nat.
Proof.
  rewrite place_order_unfold, range_seqZ.
  destruct (retry_loop _ _ _ _ _ _ _ _ None w) as [[w1 l1] r] eqn:E.
  apply retry_loop_counts in E as (H1 & H2 & H3 & H4 & H5).
  rewrite length_seqZ, Nat2Z.id in H1.
  unfold log_of. cbn [fst snd]. count_norm.
  destruct r; split_and!; lia.
Qed.

(** X2: the log tells the outcome.  When the submitter returns an order,
    every refresh but the last was followed by a failure report and every
    failure report by a sleep; when it raises, every refresh was followed by
    a failure report. *)
Theorem submission_accounting {W : Type} `{!Clock W} (exchange : Exchange W)
    (cfg : Config) (symbol side : pystr) (amount : float)
    (order_type : pystr) (price : option float) (w : W) :
  let run := place_order_with_retry exchange cfg symbol side amount
               order_type price w in
  match outcome_of run with
  | Ok _ =>
      count is_load (log_of run) = S (count is_failed (log_of run)) ∧
      count is_sleep (log_of run) = count is_failed (log_of run)
  | Raised _ => count is_failed (log_of run) = count is_load (log_of run)
  end.
Proof.
  rewrite place_order_unfold, range_seqZ.
  destruct (retry_loop _ _ _ _ _ _ _ _ None w) as [[w1 l1] r] eqn:E.
  pose proof (retry_loop_counts _ _ _ _ _ _ _ _ _ _ _ _ _ E) as (_ & _ & _ & _ & H5).
  unfold log_of, outcome_of. cbn [fst snd]. count_norm.
  destruct r as [o|e]; [|lia]. split; [lia|].
  destruct (Z.to_nat (MAX_RETRIES cfg)) as [|n] eqn:En.
  - change (seqZ 1 (Z.of_nat 0)) with (@nil Z) in E. cbn in E. done.
  - rewrite <- En in E. apply retry_loop_success_sleeps in E; lia.
Qed.





(** X5: retries repeat the same order.  All order calls of one submission
    are one and the same call - same operation, the submitted symbol and
    amount - and every follow-up fetch is for the submitted symbol. *)
Theorem retries_repeat_the_order {W : Type} `{!Clock W} (exchange : Exchange W)
    (cfg : Config) (symbol side : pystr) (amount : float)
    (order_type : pystr) (price : option float) (w : W) :
  ∃ c, call_symbol c = Some symbol ∧ call_amount c = Some amount ∧
       ∀ e, e ∈ log_of (place_order_with_retry exchange cfg symbol side amount
                          order_type price w) →
            (is_placement e = true → e = ECall c) ∧
            (is_fetch e = true → ∃ oid, e = ECall (FetchOrder oid symbol)).
Proof.
  destruct (place_order_calls exchange cfg symbol side amount order_type price w)
    as (c & Hs & Ha & _ & _ & Hall).
  exists c. split_and!; [done|done|].
  intros e He. rewrite Forall_forall in Hall.
  destruct (Hall e He) as (H1 & H2 & _). done.
Qed.

(** ** Market orders and the price *)

Lemma retry_loop_market_price {W : Type} `{!Clock W} (exchange : Exchange W) (cfg : Config)
    (symbol side : pystr) (amount : float) (price price' : option float)
    (attempts : list Z) :
  ∀ prev w,
  retry_loop exchange cfg symbol side amount (py "market") price attempts prev w
  = retry_loop exchange cfg symbol side amount (py "market") price' attempts prev w.
Proof.
  induction attempts as [|a rest IH]; intros prev w; [done|].
  rewrite !retry_loop_step.
  change (attempt_once exchange symbol side amount (py "market") price' w)
    with (attempt_once exchange symbol side amount (py "market") price w).
  destruct (attempt_once _ _ _ _ _ _ w) as [[w1 l1] [o|e]]; [done|].
  destruct (on_failure cfg a e w1) as [[w2 l2] [[]|e']]; [|done].
  by rewrite IH.
Qed.

(** X6: a market order never needs its price.  Two market submissions that
    differ only in the price make the same calls in the same order, sleep
    the same, leave the exchange in the same state and end the same way;
    only the first log line, which prints the price, differs. *)
Theorem market_order_ignores_price {W : Type} `{!Clock W} (exchange : Exchange W)
    (cfg : Config) (symbol side : pystr) (amount : float)
    (price price' : option float) (w : W) :
  ∃ w' l r,
    place_order_with_retry exchange cfg symbol side amount (py "market") price w
    = (w', EPrintPlacing side amount symbol (py "market") price :: l, r) ∧
    place_order_with_retry exchange cfg symbol side amount (py "market") price' w
    = (w', EPrintPlacing side amount symbol (py "market") price' :: l, r).
Proof.
  rewrite !place_order_unfold.
  rewrite (retry_loop_market_price exchange cfg symbol side amount price price').
  destruct (retry_loop _ _ _ _ _ _ _ _ None w) as [[w' l] r].
  by exists w', l, r.
Qed.

(** ** The handler's answers *)

Lemma no_task_filter (l : list event) :
  Forall (fun e => is_task e = false) l → List.filter is_task l = [].
Proof.
  induction 1 as [|e l He _ IH]; [done|]. simpl. by rewrite He.
Qed.

Lemma place_order_no_task {W : Type} `{!Clock W} (exchange : Exchange W) (cfg : Config)
    symbol side amount order_type price (w : W) :
  List.filter is_task
    (log_of (place_order_with_retry exchange cfg symbol side amount order_type
               price w)) = [].
Proof.
  destruct (place_order_calls exchange cfg symbol side amount order_type price w)
    as (c & _ & _ & _ & _ & Hall).
  apply no_task_filter. eapply Forall_impl; [done|]. by intros e (_ & _ & ?).
Qed.

(** X7: the handler answers 200, 400 or 500 and nothing else; 400 exactly
    when the action reads as neither side.  A 200 carries the order the
    submitter returned, its ['id'] (or [None]) as [order_id], and schedules
    the three sinks on that order, in the order CSV, spreadsheet,
    notification; any other answer schedules no sink. *)
Theorem webhook_answers {W : Type} `{!Clock W} (db : UnicodeData) (exchange : Exchange W)
    (cfg : Config) (payload : TVPayload.t) (w : W) :
  let run := webhook db exchange cfg payload w in
  (http_status (outcome_of run) = 200 ∨ http_status (outcome_of run) = 400 ∨
   http_status (outcome_of run) = 500)%Z ∧
  (http_status (outcome_of run) = 400%Z ↔ ¬ valid_side (side_of db payload)) ∧
  (http_status (outcome_of run) ≠ 200%Z →
   List.filter is_task (log_of run) = []) ∧
  (∀ status oid raw,
     outcome_of run = Response status oid raw →
     status = py "ok" ∧ oid = dict_get raw (py "id") ∧
     List.filter is_task (log_of run)
     = [EAddTask log_order raw; EAddTask log_order_to_gsheet raw;
        EAddTask notify_remote raw] ∧
     ∃ l1,
       log_of run = l1 ++ [EAddTask log_order raw; EAddTask log_order_to_gsheet raw;
                           EAddTask notify_remote raw] ∧
       place_order_with_retry exchange cfg
         (normalize_symbol db (TVPayload.symbol payload)) (side_of db payload)
         (TVPayload.quantity payload) (TVPayload.order_type payload)
         (TVPayload.price payload) w = (world_of run, l1, Ok raw)).
Proof.
  unfold webhook. fold (side_of db payload).
  destruct (str_eqb _ _ || str_eqb _ _) eqn:Ev; cbn [negb].
  - pose proof (proj1 (valid_side_eqb _) Ev) as Hv.
    pose proof (place_order_no_task exchange cfg
                  (normalize_symbol db (TVPayload.symbol payload))
                  (side_of db payload) (TVPayload.quantity payload)
                  (TVPayload.order_type payload) (TVPayload.price payload) w)
      as Hnt.
    destruct (place_order_with_retry _ _ _ _ _ _ _ w) as [[w1 l1] [o|e]];
      unfold log_of, outcome_of, world_of in *; cbn [fst snd http_status] in *.
    + split_and!; [by left| split; [done|by intros []] |done|].
      intros status oid raw [= <- <- <-]. split_and!; [done|done| |by exists l1].
      by rewrite List.filter_app, Hnt.
    + split_and!; [by right; right| split; [done|by intros []] |done|done].
  - assert (Hv : ¬ valid_side (side_of db payload)).
    { intros Hv%valid_side_eqb. congruence. }
    unfold log_of, outcome_of. cbn [fst snd http_status].
    split_and!; [by right; left|done|done|done].
Qed.

(** X8: through the handler the side is always one of the two.  A buy call
    reaches the exchange only when the action reads ['buy'], a sell call only
    when it reads ['sell'], and every order call carries the normalised
    symbol and the payload's quantity. *)
Theorem webhook_orders_follow_action {W : Type} `{!Clock W} (db : UnicodeData)
    (exchange : Exchange W) (cfg : Config) (payload : TVPayload.t) (w : W) :
  ∀ e, e ∈ log_of (webhook db exchange cfg payload w) →
    (is_buy_call e = true → side_of db payload = py "buy") ∧
    (is_sell_call e = true → side_of db payload = py "sell") ∧
    (∀ c, e = ECall c → is_placement e = true →
          call_symbol c = Some (normalize_symbol db (TVPayload.symbol payload)) ∧
          call_amount c = Some (TVPayload.quantity payload)).
Proof.
  unfold webhook. fold (side_of db payload).
  destruct (str_eqb _ _ || str_eqb _ _) eqn:Ev; cbn [negb];
    [|intros e He; by apply elem_of_nil in He].
  apply valid_side_eqb in Ev.
  destruct (place_order_calls exchange cfg
              (normalize_symbol db (TVPayload.symbol payload))
              (side_of db payload) (TVPayload.quantity payload)
              (TVPayload.order_type payload) (TVPayload.price payload) w)
    as (c0 & Hs & Ha & Hb & Hse & Hall).
  rewrite Forall_forall in Hall.
  assert (Hsub : ∀ e,
            e ∈ log_of (place_order_with_retry exchange cfg
                          (normalize_symbol db (TVPayload.symbol payload))
                          (side_of db payload) (TVPayload.quantity payload)
                          (TVPayload.order_type payload)
                          (TVPayload.price payload) w) →
            (is_buy_call e = true → side_of db payload = py "buy") ∧
            (is_sell_call e = true → side_of db payload = py "sell") ∧
            (∀ c, e = ECall c → is_placement e = true →
                  call_symbol c = Some (normalize_symbol db (TVPayload.symbol payload)) ∧
                  call_amount c = Some (TVPayload.quantity payload))).
  { intros e He. destruct (Hall e He) as (Hp & _ & _). split_and!.
    - intros Hbuy. apply Hb. rewrite <- Hp; [done|].
      by destruct e as [[]| | | |].
    - intros Hsell. destruct Ev as [Hbuy|Hsell']; [|done].
      exfalso. apply Hse; [|done]. rewrite <- Hp; [done|].
      by destruct e as [[]| | | |].
    - intros c -> Hc. apply Hp in Hc as [= ->]. done. }
  destruct (place_order_with_retry _ _ _ _ _ _ _ w) as [[w1 l1] [o|e1]];
    unfold log_of in *; cbn [fst snd] in *; [|done].
  intros e [He|He]%elem_of_app; [by apply Hsub|].
  assert (Ht : is_task e = true).
  { repeat (apply elem_of_cons in He as [->|He]; [done|]).
    by apply elem_of_nil in He. }
  destruct e; try discriminate. split_and!; [done|done|]. by intros c [=].
Qed.

Lemma webhook_orders_follow_action_witness :
  (is_buy_call (ECall (CreateMarketBuyOrder btc_usdt one)) = true →
   side_of ident_db shouting_payload = py "buy") ∧
  (is_sell_call (ECall (CreateMarketBuyOrder btc_usdt one)) = true →
   side_of ident_db shouting_payload = py "sell") ∧
  (∀ c, ECall (CreateMarketBuyOrder btc_usdt one) = ECall c →
        is_placement (ECall (CreateMarketBuyOrder btc_usdt one)) = true →
        call_symbol c
        = Some (normalize_symbol ident_db (TVPayload.symbol shouting_payload)) ∧
        call_amount c = Some (TVPayload.quantity shouting_payload)).
Proof.
  apply (webhook_orders_follow_action ident_db scripted default_cfg
           shouting_payload open_then_filled
           (ECall (CreateMarketBuyOrder btc_usdt one))).
  rewrite shouting_payload_run. unfold log_of. cbn [fst snd].
  apply elem_of_cons. right. apply elem_of_cons. right.
  apply elem_of_cons. by left.
Defined.

(** ** Which actions the handler accepts *)

(** X9: for an action that is ASCII once stripped, the handler answers
    something other than 400 exactly when the action is a case variant of
    ['buy'] or ['sell'] between two runs of whitespace. *)
Theorem accepted_actions {W : Type} `{!Clock W} (db : UnicodeData) (exchange : Exchange W)
    (cfg : Config) (payload : TVPayload.t) (w : W) :
  all_ascii (strip (TVPayload.action payload)) →
  (http_status (outcome_of (webhook db exchange cfg payload w)) ≠ 400%Z ↔
   ∃ target v, valid_side target ∧ case_variant target v ∧
               padded v (TVPayload.action payload)).
Proof.
  intros Hascii.
  assert (Hstatus :
    http_status (outcome_of (webhook db exchange cfg payload w)) ≠ 400%Z ↔
    valid_side (side_of db payload)).
  { unfold webhook. fold (side_of db payload).
    destruct (str_eqb _ _ || str_eqb _ _) eqn:Ev; cbn [negb].
    - apply valid_side_eqb in Ev.
      destruct (place_order_with_retry _ _ _ _ _ _ _ w) as [[w1 l1] [o|e]];
        unfold outcome_of; cbn [snd http_status]; split; done.
    - unfold outcome_of. cbn [snd http_status]. split; [done|].
      intros Hv%valid_side_eqb. congruence. }
  rewrite Hstatus. split.
  - intros Hv. exists (side_of db payload), (strip (TVPayload.action payload)).
    split_and!; [done| |apply strip_is_padded].
    by apply ascii_side_variant.
  - intros (target & v & Ht & Hv & Hp). unfold side_of.
    by rewrite (padded_variant_side db _ _ _ Ht Hv Hp).
Qed.

Lemma accepted_actions_witness :
  http_status (outcome_of (webhook ident_db scripted default_cfg shouting_payload
                             open_then_filled)) ≠ 400%Z ↔
  ∃ target v, valid_side target ∧ case_variant target v ∧
              padded v (TVPayload.action shouting_payload).
Proof.
  apply (accepted_actions ident_db scripted default_cfg shouting_payload
           open_then_filled).
  unfold all_ascii. by repeat constructor.
Defined.

(** ** More on the symbol normaliser *)

Lemma subst_underscores_elem (x : codepoint) (s : pystr) :
  x ∈ subst_underscores s →
  (x = slash ∧ (slash ∈ s ∨ underscore ∈ s)) ∨ (x ≠ underscore ∧ x ∈ s).
Proof.
  unfold subst_underscores. induction s as [|c s IH]; simpl.
  - by intros ?%elem_of_nil.
  - rewrite elem_of_cons. intros [->|H].
    + destruct (N.eqb_spec c underscore) as [->|Hc].
      * left. split; [done|]. right. apply elem_of_cons. by left.
      * right. split; [done|]. apply elem_of_cons. by left.
    + destruct (IH H) as [[-> [?|?]]|[? ?]].
      * left. split; [done|]. left. apply elem_of_cons. by right.
      * left. split; [done|]. right. apply elem_of_cons. by right.
      * right. split; [done|]. apply elem_of_cons. by right.
Qed.

(** X10: under the usual property of the uppercase table, the normalised
    symbol contains the separator exactly when the input contains a ['/'] or
    an underscore: a ticker with neither (["btcusdt"]) comes out upper-cased
    but unseparated. *)
Theorem normalize_symbol_separator (db : UnicodeData) (s : pystr) :
  upper_closed db →
  (has_separator (normalize_symbol db s) ↔ slash ∈ s ∨ underscore ∈ s).
Proof.
  intros Hdb. unfold has_separator. rewrite normalize_symbol_unfold.
  destruct (contains [slash] s) eqn:E.
  - apply contains_char in E. split; [by left|done].
  - apply contains_char_false in E. split.
    + intros H. apply (upper_sep_inv db Hdb) in H; [|by left].
      apply subst_underscores_elem in H as [[_ ?]|[_ ?]]; [done|by left].
    + intros [?|Hu]; [done|]. by apply upper_slash, subst_underscores_slash.
Qed.

Lemma normalize_symbol_separator_witness :
  has_separator (normalize_symbol sample_db sharp_s_pair) ↔
  slash ∈ sharp_s_pair ∨ underscore ∈ sharp_s_pair.
Proof.
  apply (normalize_symbol_separator sample_db sharp_s_pair).
  exact sample_db_closed.
Defined.

(** X11: under the same property, a symbol without ['/'] comes out with no
    underscore and no ASCII lower-case letter left, and every character of
    the result is left alone by a further upper-casing. *)
Theorem normalize_symbol_upper_case (db : UnicodeData) (s : pystr) :
  upper_closed db → ¬ has_separator s →
  ∀ d, d ∈ normalize_symbol db s →
       d ≠ underscore ∧ ¬ (97 <= d <= 122) ∧ upper_ucs4 db d = [d].
Proof.
  intros Hdb Hs d. unfold has_separator in Hs. rewrite normalize_symbol_unfold.
  apply contains_char_false in Hs as E. rewrite E. intros Hd.
  assert (Hfix : upper_ucs4 db d = [d]).
  { unfold upper in Hd. apply list_elem_of_In, in_flat_map in Hd as (c & _ & Hc).
    apply list_elem_of_In in Hc. by apply (upper_ucs4_out db Hdb) in Hc as [? _]. }
  split_and!; [| |done].
  - intros ->. apply (upper_sep_inv db Hdb) in Hd; [|by right].
    apply subst_underscores_elem in Hd as [[? _]|[? _]]; done.
  - intros [H1 H2]. unfold upper_ucs4, is_ascii in Hfix.
    destruct (N.ltb_spec d 128); [|lia]. unfold ascii_toupper in Hfix.
    destruct (N.leb_spec 97 d); [|lia]. destruct (N.leb_spec d 122); [|lia].
    simpl in Hfix. injection Hfix. lia.
Qed.

Lemma normalize_symbol_upper_case_witness :
  83 ≠ underscore ∧ ¬ (97 <= 83 <= 122) ∧ upper_ucs4 sample_db 83 = [83].
Proof.
  apply (normalize_symbol_upper_case sample_db sharp_s_pair).
  - exact sample_db_closed.
  - unfold has_separator. apply contains_char_false. reflexivity.
  - change (normalize_symbol sample_db sharp_s_pair)
      with [83; 84; 82; 65; 83; 83; 69; 47; 85; 83; 68; 84].
    apply elem_of_cons. by left.
Defined.

(** ** The sinks *)

Lemma log_order_existing (b : Builtins) (now : pystr) (o : order)
    (rows : list (list pyval)) :
  log_order_file b now o (Some rows) = Some (rows ++ [gsheet_row b now o]).
Proof. done. Qed.

Lemma log_order_fresh (b : Builtins) (now : pystr) (o : order) :
  log_order_file b now o None = Some [header; gsheet_row b now o].
Proof. done. Qed.

(** X12: the CSV log is append-only and agrees with the spreadsheet.  On an
    existing file - even an empty one - each call of [log_order] adds one
    record and no header; on a missing file the first call writes the header
    first.  The records are, cell for cell, the rows [log_order_to_gsheet]
    appends for the same time stamps and orders, and each is as wide as the
    header, whatever keys the order has. *)
Theorem log_order_appends (b : Builtins) (entries : list (pystr * order)) :
  (∀ rows,
     foldl (fun f e => log_order_file b e.1 e.2 f) (Some rows) entries
     = Some (rows ++ List.map (fun e => gsheet_row b e.1 e.2) entries)) ∧
  (∀ e,
     foldl (fun f e => log_order_file b e.1 e.2 f) None (e :: entries)
     = Some (header :: List.map (fun e => gsheet_row b e.1 e.2) (e :: entries))) ∧
  (∀ e, e ∈ entries → length (gsheet_row b e.1 e.2) = length header).
Proof.
  assert (Hex : ∀ rows,
     foldl (fun f e => log_order_file b e.1 e.2 f) (Some rows) entries
     = Some (rows ++ List.map (fun e => gsheet_row b e.1 e.2) entries)).
  { induction entries as [|e entries IH]; intros rows.
    - by rewrite app_nil_r.
    - cbn [foldl List.map]. rewrite log_order_existing, IH, <- app_assoc. done. }
  split_and!; [done| |done].
  intros e. cbn [foldl]. rewrite log_order_fresh, Hex. done.
Qed.

(** X13: [notify_remote] keeps the failures of the request to itself.  With
    no URL configured (unset or empty) it does nothing at all.  Otherwise,
    once the client is open, it makes exactly one POST of the order to the
    URL with a 10 second timeout.  When the POST raises, that exception is
    printed; when the POST returns and [raise_for_status] raises on its
    response, that exception is printed; when neither raises, nothing is
    printed.  In all three cases the client is closed and the outcome of
    the call is the outcome of closing the client. *)
Theorem notify_remote_contains_failures {H Resp : Type}
    (client : HttpClient H Resp) (url : option pystr) (o : order) (h : H) :
  (blank url = true → notify_remote_run client url o h = (h, [], Ok tt)) ∧
  (∀ u h1 h2 r,
     url = Some u → blank url = false →
     client_enter client h = (h1, Ok tt) →
     client_post client u o 10 h1 = (h2, r) →
     (∀ e, r = Raised e →
        notify_remote_run client url o h
        = (fst (client_exit client h2),
           [NEnter; NPost u o 10; NPrintFailed e; NExit],
           snd (client_exit client h2))) ∧
     (∀ resp e, r = Ok resp → raise_for_status client resp = Raised e →
        notify_remote_run client url o h
        = (fst (client_exit client h2),
           [NEnter; NPost u o 10; NPrintFailed e; NExit],
           snd (client_exit client h2))) ∧
     (∀ resp, r = Ok resp → raise_for_status client resp = Ok tt →
        notify_remote_run client url o h
        = (fst (client_exit client h2),
           [NEnter; NPost u o 10; NExit],
           snd (client_exit client h2)))).
Proof.
  split.
  - destruct url as [[|c u]|]; [done|discriminate|done].
  - intros u h1 h2 r -> Hb Henter Hpost. destruct u as [|c u]; [discriminate|].
    unfold notify_remote_run. rewrite Henter, Hpost.
    split_and!.
    + intros e ->. by destruct (client_exit client h2).
    + intros resp e -> ->. by destruct (client_exit client h2).
    + intros resp -> ->. by destruct (client_exit client h2).
Qed.

Lemma notify_remote_contains_failures_witness :
  notify_remote_run status_client (Some []) filled 500%Z = (500%Z, [], Ok tt) ∧
  notify_remote_run status_client (Some hook_url) filled 0%Z
  = (0%Z, [NEnter; NPost hook_url filled 10; NPrintFailed timeout_error; NExit],
     Ok tt) ∧
  notify_remote_run status_client (Some hook_url) filled 500%Z
  = (500%Z,
     [NEnter; NPost hook_url filled 10;
      NPrintFailed (ExchangeError (py "HTTPStatusError") []); NExit],
     Ok tt) ∧
  notify_remote_run status_client (Some hook_url) filled 200%Z
  = (200%Z, [NEnter; NPost hook_url filled 10; NExit], Ok tt).
Proof.
  split_and!.
  - apply (proj1 (notify_remote_contains_failures status_client (Some [])
                    filled 500%Z)).
    reflexivity.
  - apply (proj1 (proj2 (notify_remote_contains_failures status_client
                           (Some hook_url) filled 0%Z)
                    hook_url 0%Z 0%Z (Raised timeout_error)
                    eq_refl eq_refl eq_refl eq_refl)
             timeout_error).
    reflexivity.
  - apply (proj1 (proj2 (proj2 (notify_remote_contains_failures status_client
                                  (Some hook_url) filled 500%Z)
                           hook_url 500%Z 500%Z (Ok 500%Z)
                           eq_refl eq_refl eq_refl eq_refl))
             500%Z (ExchangeError (py "HTTPStatusError") [])).
    + reflexivity.
    + reflexivity.
  - apply (proj2 (proj2 (proj2 (notify_remote_contains_failures status_client
                                  (Some hook_url) filled 200%Z)
                           hook_url 200%Z 200%Z (Ok 200%Z)
                           eq_refl eq_refl eq_refl eq_refl))
             200%Z).
    + reflexivity.
    + reflexivity.
Defined.

(** The run behind the witness: a 500 from the remote end is printed, not
    raised. *)
Example notify_remote_500_run :
  notify_remote_run status_client (Some hook_url) filled 500%Z
  = (500%Z,
     [NEnter; NPost hook_url filled 10;
      NPrintFailed (ExchangeError (py "HTTPStatusError") []); NExit],
     Ok tt).
Proof. reflexivity. Qed.

(** ** Start-up *)

Lemma blank_false (s : option pystr) :
  blank s = false ↔ ∃ c u, s = Some (c :: u).
Proof.
  destruct s as [[|c u]|]; simpl; split; try done;
    try (intros (? & ? & ?); done). intros _. by exists c, u.
Qed.

(** X14: the service only starts with both exchange credentials.  When the
    module-level code runs to its end, the API key and the secret are set and
    non-empty, the spreadsheet was opened, and the retry settings are the
    integers read from the environment, 3 attempts and 2 seconds when
    unset; and with a key or secret unset or empty it never runs to its
    end. *)
Theorem startup_needs_credentials (db : UnicodeData)
    (int_of : pystr → outcome Z)
    (open_sheet : pystr → option pystr → outcome unit) (env : environ) :
  (∀ st, startup db int_of open_sheet env = inr st →
     GATE_API_KEY st = env !! py "GATEIO_API_KEY" ∧
     GATE_API_SECRET st = env !! py "GATEIO_API_SECRET" ∧
     blank (GATE_API_KEY st) = false ∧ blank (GATE_API_SECRET st) = false ∧
     open_sheet (SERVICE_ACCOUNT_FILE st) (SHEET_ID st) = Ok tt ∧
     match env !! py "MAX_RETRIES" with
     | None => MAX_RETRIES (retry st) = 3%Z
     | Some v => int_of v = Ok (MAX_RETRIES (retry st))
     end ∧
     match env !! py "RETRY_DELAY" with
     | None => RETRY_DELAY (retry st) = 2%Z
     | Some v => int_of v = Ok (RETRY_DELAY (retry st))
     end) ∧
  (blank (env !! py "GATEIO_API_KEY") = true ∨
   blank (env !! py "GATEIO_API_SECRET") = true →
   ∃ err, startup db int_of open_sheet env = inl err).
Proof.
  unfold startup.
  destruct (match env !! py "MAX_RETRIES" with
            | Some v => int_of v | None => Ok 3%Z end) as [m|e1] eqn:Em;
    [|split; [done|intros _; eauto]].
  destruct (match env !! py "RETRY_DELAY" with
            | Some v => int_of v | None => Ok 2%Z end) as [d|e2] eqn:Ed;
    [|split; [done|intros _; eauto]].
  destruct (open_sheet _ _) as [[]|e3] eqn:Es;
    [|split; [done|intros _; eauto]].
  destruct (blank (env !! py "GATEIO_API_KEY") ||
            blank (env !! py "GATEIO_API_SECRET")) eqn:Eb.
  - split; [done|intros _; eauto].
  - apply orb_false_iff in Eb as [Ek Esec]. split.
    + intros st [= <-].
      cbn [GATE_API_KEY GATE_API_SECRET retry MAX_RETRIES RETRY_DELAY
           SERVICE_ACCOUNT_FILE SHEET_ID].
      split_and!; try done.
      * destruct (env !! py "MAX_RETRIES"); [done|by injection Em].
      * destruct (env !! py "RETRY_DELAY"); [done|by injection Ed].
    + intros [?|?]; congruence.
Qed.

Lemma startup_needs_credentials_witness :
  GATE_API_KEY sample_settings = sample_env !! py "GATEIO_API_KEY" ∧
  blank (GATE_API_KEY sample_settings) = false ∧
  (blank ((∅ : environ) !! py "GATEIO_API_KEY") = true ∨
   blank ((∅ : environ) !! py "GATEIO_API_SECRET") = true →
   ∃ err, startup ident_db sample_int sheet_opens ∅ = inl err).
Proof.
  split_and!.
  - by apply (proj1 (startup_needs_credentials ident_db sample_int sheet_opens
                       sample_env) sample_settings).
  - by apply (proj1 (startup_needs_credentials ident_db sample_int sheet_opens
                       sample_env) sample_settings).
  - apply (proj2 (startup_needs_credentials ident_db sample_int sheet_opens ∅)).
Defined.

Lemma variant_lowers (target v : pystr) :
  Forall (fun t => 97 <= t <= 122) target → case_variant target v →
  all_ascii v ∧ List.map ascii_tolower v = target.
Proof.
  unfold case_variant, all_ascii. intros Ht Hv.
  induction Hv as [|t c target v Hc _ IH]; [by split|].
  inversion Ht as [|? ? Hlow Ht']; subst. destruct (IH Ht') as [IH1 IH2].
  assert (is_ascii c = true ∧ ascii_tolower c = t) as [Ha Hl].
  { unfold is_ascii, ascii_tolower, same_letter, ascii_toupper in *.
    destruct (N.leb_spec 97 t); [|lia]. destruct (N.leb_spec t 122); [|lia].
    simpl in Hc. destruct Hc as [->| ->].
    - split; [apply N.ltb_lt; lia|].
      destruct (N.leb_spec 65 t); [|done]. destruct (N.leb_spec t 90); [lia|done].
    - split; [apply N.ltb_lt; lia|].
      destruct (N.leb_spec 65 (t - 32)); [|lia].
      destruct (N.leb_spec (t - 32) 90); [|lia]. simpl. lia. }
  split; [by constructor|]. simpl. by rewrite Hl, IH2.
Qed.

(** X15: sandbox mode is switched on by the word "true" in any letter case
    and by nothing else: for an ASCII value of [GATEIO_SANDBOX] the flag is
    set exactly when the value is a case variant of ["true"] - the value is
    not stripped, so padding switches it off - and it is off when the
    variable is unset. *)
Theorem sandbox_flag (db : UnicodeData) (int_of : pystr → outcome Z)
    (open_sheet : pystr → option pystr → outcome unit) (env : environ)
    (st : Settings) :
  startup db int_of open_sheet env = inr st →
  (env !! py "GATEIO_SANDBOX" = None → sandbox st = false) ∧
  (∀ v, env !! py "GATEIO_SANDBOX" = Some v → all_ascii v →
        (sandbox st = true ↔ case_variant (py "true") v)).
Proof.
  intros Hst.
  assert (Hflag : sandbox st =
            str_eqb (lower db (default (py "false") (env !! py "GATEIO_SANDBOX")))
              (py "true")).
  { unfold startup in Hst.
    destruct (match env !! py "MAX_RETRIES" with
              | Some v => int_of v | None => Ok 3%Z end); [|done].
    destruct (match env !! py "RETRY_DELAY" with
              | Some v => int_of v | None => Ok 2%Z end); [|done].
    destruct (open_sheet _ _); [|done].
    destruct (blank _ || blank _); [done|]. by injection Hst as <-. }
  rewrite Hflag. clear Hflag Hst.
  assert (Hlow : Forall (fun t => 97 <= t <= 122) (py "true")).
  { change (py "true") with [116; 114; 117; 101].
    repeat (constructor; [lia|]). constructor. }
  split.
  - intros ->. done.
  - intros v -> Hv. change (default (py "false") (Some v)) with v.
    rewrite str_eqb_eq, (lower_ascii db v Hv).
    split.
    + by apply lowered_is_variant.
    + intros Hc. by apply variant_lowers in Hc as [_ ?].
Qed.

Lemma sandbox_flag_witness :
  (sample_env !! py "GATEIO_SANDBOX" = None → sandbox sample_settings = false) ∧
  (∀ v, sample_env !! py "GATEIO_SANDBOX" = Some v → all_ascii v →
        (sandbox sample_settings = true ↔ case_variant (py "true") v)).
Proof.
  apply (sandbox_flag ident_db sample_int sheet_opens sample_env sample_settings).
  reflexivity.
Defined.

(** ** More on the retry loop *)

Section Budget.
Context {W : Type} `{!Clock W} (exchange : Exchange W) (cfg : Config).
Variables (symbol side : pystr) (amount : float) (order_type : pystr)
  (price : option float).

Lemma retry_loop_sleep_bound n :
  ∀ a prev w w' l r,
  (a + Z.of_nat n = MAX_RETRIES cfg + 1)%Z →
  retry_loop exchange cfg symbol side amount order_type price
    (seqZ a (Z.of_nat n)) prev w = (w', l, r) →
  (count is_sleep l <= n - 1)%nat.
Proof.
  induction n as [|n IH]; intros a prev w w' l r Ha.
  - change (seqZ a (Z.of_nat 0)) with (@nil Z). cbn [retry_loop].
    unfold raise_last, raise. by destruct prev; intros [= <- <- <-].
  - rewrite seqZ_cons by lia.
    replace (Z.pred (Z.of_nat (S n))) with (Z.of_nat n) by lia.
    rewrite retry_loop_step.
    destruct (attempt_once _ _ _ _ _ _ w) as [[w1 l1] [o1|e]] eqn:Ea;
      apply attempt_once_counts in Ea as (_ & _ & _ & A4 & _).
    + intros [= <- <- <-]. rewrite A4. lia.
    + destruct (on_failure_run cfg a e w1)
        as [(_ & w2 & es & _ & ->)|[(Hlt & w2 & _ & ->)|(_ & ->)]].
      * intros [= <- <- <-]. count_norm. rewrite A4. lia.
      * destruct (retry_loop _ _ _ _ _ _ _ _ (Some e) w2)
          as [[w3 l3] r3] eqn:Er.
        intros [= <- <- <-]. apply IH in Er; [|lia].
        count_norm. rewrite A4. lia.
      * destruct (retry_loop _ _ _ _ _ _ _ _ (Some e) w1)
          as [[w3 l3] r3] eqn:Er.
        intros [= <- <- <-]. apply IH in Er; [|lia].
        count_norm. rewrite A4. lia.
Qed.

Lemma attempt_once_no_sleep w w' l r :
  attempt_once exchange symbol side amount order_type price w = (w', l, r) →
  Forall (fun e => is_sleep e = true → e = ESleep (RETRY_DELAY cfg)) l.
Proof.
  intros H. apply attempt_once_log in H as (Hc & _).
  induction l as [|e l IH]; [constructor|].
  simpl in Hc. apply andb_true_iff in Hc as [He Hl].
  constructor; [|by apply IH]. by destruct e.
Qed.

End Budget.

(** X16: the waiting of a submission is bounded and not backed off.  Every
    sleep lasts exactly [RETRY_DELAY], and there are at most
    [MAX_RETRIES - 1] of them, whatever the exchange does. *)
Theorem sleep_budget {W : Type} `{!Clock W} (exchange : Exchange W) (cfg : Config)
    (symbol side : pystr) (amount : float) (order_type : pystr)
    (price : option float) (w : W) :
  let l := log_of (place_order_with_retry exchange cfg symbol side amount
                     order_type price w) in
  (count is_sleep l <= Z.to_nat (MAX_RETRIES cfg) - 1)%nat ∧
  ∀ e, e ∈ l → is_sleep e = true → e = ESleep (RETRY_DELAY cfg).
Proof.
  split.
  - rewrite place_order_unfold, range_seqZ.
    destruct (retry_loop _ _ _ _ _ _ _ _ None w) as [[w1 l1] r] eqn:E.
    unfold log_of. cbn [fst snd]. count_norm.
    destruct (Z.to_nat (MAX_RETRIES cfg)) as [|n] eqn:En.
    + change (seqZ 1 (Z.of_nat 0)) with (@nil Z) in E. cbn in E.
      by injection E as <- <- <-.
    + rewrite <- En in E. apply retry_loop_sleep_bound in E; lia.
  - apply (proj1 (Forall_forall
                    (fun e => is_sleep e = true → e = ESleep (RETRY_DELAY cfg)) _)).
    apply place_order_forall; try done. apply attempt_once_no_sleep.
Qed.



(** X18: an open or partly filled order without an ['id'] key cannot be
    followed up.  [order['id']] raises [KeyError] before any fetch, so the
    attempt fails although the order was placed, and the loop treats it like
    any other failure. *)
Theorem open_order_without_id_fails {W : Type} (exchange : Exchange W)
    (symbol side : pystr) (amount : float) (order_type : pystr)
    (price : option float) (w w1 w2 : W) (l2 : list event) (o : order) :
  load_markets exchange w = (w1, Ok tt) →
  dispatch exchange symbol side amount order_type price w1 = (w2, l2, Ok o) →
  dict_get o (py "status") = VStr (py "open") ∨
  dict_get o (py "status") = VStr (py "partial") →
  o !! py "id" = None →
  attempt_once exchange symbol side amount order_type price w
  = (w2, ECall LoadMarkets :: l2, Raised (KeyError (py "id"))) ∧
  count is_placement (ECall LoadMarkets :: l2) = 1%nat ∧
  count is_fetch (ECall LoadMarkets :: l2) = 0%nat.
Proof.
  intros Hload Hdisp Hst%in_pair_spec Hid. split.
  - unfold attempt_once. unfold mbind at 1 2, M_bind, bind, invoke.
    rewrite Hload, Hdisp. unfold follow_up. rewrite Hst. run_M.
    by rewrite Hid, app_nil_r.
  - apply dispatch_ok_log in Hdisp as (c & -> & Hc).
    by destruct c.
Qed.

Lemma open_order_without_id_fails_witness :
  attempt_once scripted btc_usdt (py "buy") one (py "market") None
    [Ok ∅; Ok anonymous; Ok filled]
  = ([Ok filled],
     ECall LoadMarkets :: [ECall (CreateMarketBuyOrder btc_usdt one)],
     Raised (KeyError (py "id"))) ∧
  count is_placement
    (ECall LoadMarkets :: [ECall (CreateMarketBuyOrder btc_usdt one)]) = 1%nat ∧
  count is_fetch
    (ECall LoadMarkets :: [ECall (CreateMarketBuyOrder btc_usdt one)]) = 0%nat.
Proof.
  apply (open_order_without_id_fails scripted btc_usdt (py "buy") one
           (py "market") None [Ok ∅; Ok anonymous; Ok filled]
           [Ok anonymous; Ok filled] [Ok filled]
           [ECall (CreateMarketBuyOrder btc_usdt one)] anonymous).
  - reflexivity.
  - reflexivity.
  - by left.
  - reflexivity.
Defined.
